(** * teleNewsBot: the subscriber stores and the news monitor

    A shallow embedding of [subscriber_db_sqlite.py], [subscriber_db.py],
    [config/settings.py] and of the class [FinancialNewsMonitor] of
    [simple_solution.py], with the properties its specification states.

    Conventions.
    - A Python exception is a value [exn]; code that may raise returns an
      [outcome].  Only subclasses of [Exception] are modelled, so
      [except Exception] and a bare [except] catch every [exn].
    - A character is one [ascii] (the code points 0..255), a [str] is a
      [string], and [len] is [String.length].
    - A table with a primary key is a finite map from the key to the rest of
      the row.
    - [logger] calls change neither the control flow nor any state that the
      program reads back; they are left out.
    - The monitor loop is run on its own: the command handlers, which may
      run between two of its awaits, are not part of the embedding. *)

From stdpp Require Import gmap strings list fin_maps.
From Stdlib Require Import ZArith QArith Ascii String.

Local Open Scope Z_scope.
Local Open Scope string_scope.

(** ** Exceptions and results *)

(** An exception: the name of its class and the text [str(e)]. *)
Record exn := Exn { exn_class : string; exn_text : string }.

Inductive outcome (A : Type) : Type :=
| Ret (a : A)
| Raise (e : exn).
Arguments Ret {A} a.
Arguments Raise {A} e.

Definition is_raise {A} (o : outcome A) : bool :=
  match o with Ret _ => false | Raise _ => true end.

(** ** The stored relation

    [subscribers(user_id PRIMARY KEY, username, first_name, subscribed_at,
    active)].  [username] and [first_name] are nullable; a timestamp is a
    number; [active] is the stored truth value (1/0 in SQLite, a BOOLEAN in
    PostgreSQL). *)

Record row := Row {
  username : option string;
  first_name : option string;
  subscribed_at : Z;
  active : bool
}.

Abbreviation table := (gmap Z row).

(** [UPDATE subscribers SET active = 0] on one row. *)
Definition deactivate (r : row) : row :=
  Row (username r) (first_name r) (subscribed_at r) false.

(** [SELECT user_id FROM subscribers WHERE active = 1]: the one-column rows
    of the answer, in the order of the stored map. *)
Definition select_active (t : table) : list Z :=
  (filter (λ kr, active kr.2 = true) (map_to_list t)).*1.

(** [SELECT COUNT( * ) FROM subscribers WHERE active = 1]. *)
Definition count_active (t : table) : Z :=
  Z.of_nat (List.length (filter (λ kr, active kr.2 = true) (map_to_list t))).

(** The rows stored under one identifier. *)
Definition rows_of (user_id : Z) (t : table) : list (Z * row) :=
  filter (λ kr, kr.1 = user_id) (map_to_list t).

(** What a database is: [None] until [CREATE TABLE] has run. *)
Abbreviation database := (option table).

Definition no_such_table : exn :=
  Exn "OperationalError" "no such table: subscribers".

(** ** subscriber_db_sqlite.py

    Every method opens the file, runs one statement and commits.  [fault] is
    what the driver raises in that call, if anything; a statement that raised
    is not committed. *)

Module subscriber_db_sqlite.

(** [CREATE TABLE IF NOT EXISTS subscribers (...)] and [commit]. *)
Definition create_table (fault : option exn) (db : database)
  : outcome unit * database :=
  match fault with
  | Some e => (Raise e, db)
  | None => (Ret tt, Some (default ∅ db))
  end.

(** [try: create_table() except Exception: log; raise]. *)
Definition connect (fault : option exn) (db : database)
  : outcome unit * database :=
  match create_table fault db with
  | (Ret _, db') => (Ret tt, db')
  | (Raise e, db') => (Raise e, db')
  end.

(** [INSERT OR REPLACE INTO subscribers (...) VALUES (?, ?, ?, ?, ?)]:
    a row with the same key is replaced as a whole. *)
Definition insert_or_replace (fault : option exn) (user_id : Z) (r : row)
    (db : database) : outcome unit * database :=
  match fault with
  | Some e => (Raise e, db)
  | None =>
      match db with
      | None => (Raise no_such_table, db)
      | Some t => (Ret tt, Some (<[user_id := r]> t))
      end
  end.

(** [now] is the reading of [datetime.now()]. *)
Definition add_subscriber (fault : option exn) (now : Z) (user_id : Z)
    (username first_name : option string) (db : database)
  : outcome bool * database :=
  match insert_or_replace fault user_id (Row username first_name now true) db with
  | (Ret _, db') => (Ret true, db')
  | (Raise _, db') => (Ret false, db')
  end.

(** [UPDATE subscribers SET active = 0 WHERE user_id = ?]. *)
Definition update_inactive (fault : option exn) (user_id : Z) (db : database)
  : outcome unit * database :=
  match fault with
  | Some e => (Raise e, db)
  | None =>
      match db with
      | None => (Raise no_such_table, db)
      | Some t => (Ret tt, Some (alter deactivate user_id t))
      end
  end.

Definition remove_subscriber (fault : option exn) (user_id : Z) (db : database)
  : outcome bool * database :=
  match update_inactive fault user_id db with
  | (Ret _, db') => (Ret true, db')
  | (Raise _, db') => (Ret false, db')
  end.

Definition fetch_active (fault : option exn) (db : database)
  : outcome (list Z) :=
  match fault with
  | Some e => Raise e
  | None =>
      match db with
      | None => Raise no_such_table
      | Some t => Ret (select_active t)
      end
  end.

Definition get_active_subscribers (fault : option exn) (db : database)
  : outcome (list Z) * database :=
  match fetch_active fault db with
  | Ret rows => (Ret rows, db)
  | Raise _ => (Ret [], db)
  end.

Definition fetch_count (fault : option exn) (db : database) : outcome Z :=
  match fault with
  | Some e => Raise e
  | None =>
      match db with
      | None => Raise no_such_table
      | Some t => Ret (count_active t)
      end
  end.

Definition get_subscriber_count (fault : option exn) (db : database)
  : outcome Z * database :=
  match fetch_count fault db with
  | Ret n => (Ret n, db)
  | Raise _ => (Ret 0, db)
  end.

End subscriber_db_sqlite.

(** ** subscriber_db.py

    The object holds [pool]; the server holds the relation.  Every
    statement is committed on its own. *)

Module subscriber_db.

Record state := State {
  pool : bool;           (* [self.pool is not None] *)
  server : database
}.

Definition no_pool : exn :=
  Exn "AttributeError" "'NoneType' object has no attribute 'acquire'".

Definition url_not_set : exn :=
  Exn "ValueError" "DATABASE_URL environment variable is not set".

(** [not DATABASE_URL]: unset or empty. *)
Definition url_missing (DATABASE_URL : option string) : bool :=
  match DATABASE_URL with
  | None => true
  | Some s => bool_decide (s = EmptyString)
  end.

(** [async with self.pool.acquire() as conn: conn.execute(CREATE TABLE IF
    NOT EXISTS ...)]. *)
Definition create_table (fault : option exn) (st : state)
  : outcome unit * state :=
  if pool st then
    match fault with
    | Some e => (Raise e, st)
    | None => (Ret tt, State true (Some (default ∅ (server st))))
    end
  else (Raise no_pool, st).

(** [fault_pool] is what [asyncpg.create_pool] raises, [fault] what the
    statement raises. *)
Definition connect (DATABASE_URL : option string)
    (fault_pool fault : option exn) (st : state) : outcome unit * state :=
  if url_missing DATABASE_URL then (Raise url_not_set, st)
  else
    match fault_pool with
    | Some e => (Raise e, st)
    | None => create_table fault (State true (server st))
    end.

(** [INSERT ... VALUES ($1, $2, $3, $4, TRUE) ON CONFLICT (user_id) DO
    UPDATE SET active=TRUE, username=$2, first_name=$3]. *)
Definition upsert (user_id : Z) (username first_name : option string)
    (now : Z) (t : table) : table :=
  match t !! user_id with
  | Some old => <[user_id := Row username first_name (subscribed_at old) true]> t
  | None => <[user_id := Row username first_name now true]> t
  end.

Definition execute (fault : option exn) (f : table → table) (st : state)
  : outcome unit * state :=
  if pool st then
    match fault with
    | Some e => (Raise e, st)
    | None =>
        match server st with
        | None => (Raise no_such_table, st)
        | Some t => (Ret tt, State true (Some (f t)))
        end
    end
  else (Raise no_pool, st).

(** [now] is the reading of [datetime.utcnow()].  The method has no
    [return]: it returns [None], or re-raises what it caught. *)
Definition add_subscriber (fault : option exn) (now : Z) (user_id : Z)
    (username first_name : option string) (st : state)
  : outcome unit * state :=
  match execute fault (upsert user_id username first_name now) st with
  | (Ret _, st') => (Ret tt, st')
  | (Raise e, st') => (Raise e, st')
  end.

Definition remove_subscriber (fault : option exn) (user_id : Z) (st : state)
  : outcome unit * state :=
  match execute fault (alter deactivate user_id) st with
  | (Ret _, st') => (Ret tt, st')
  | (Raise e, st') => (Raise e, st')
  end.

Definition fetch (fault : option exn) {A} (q : table → A) (st : state)
  : outcome A :=
  if pool st then
    match fault with
    | Some e => Raise e
    | None =>
        match server st with
        | None => Raise no_such_table
        | Some t => Ret (q t)
        end
    end
  else Raise no_pool.

Definition get_active_subscribers (fault : option exn) (st : state)
  : outcome (list Z) * state :=
  match fetch fault select_active st with
  | Ret rows => (Ret rows, st)
  | Raise _ => (Ret [], st)
  end.

Definition get_subscriber_count (fault : option exn) (st : state)
  : outcome Z * state :=
  match fetch fault count_active st with
  | Ret n => (Ret n, st)
  | Raise _ => (Ret 0, st)
  end.

End subscriber_db.

(** ** A client of a store

    What a caller can do with a store and what it gets back, so that the two
    backends can be run on the same sequence of calls. *)

Inductive call :=
| Connect
| AddSubscriber (user_id : Z) (username first_name : option string)
| RemoveSubscriber (user_id : Z)
| GetActiveSubscribers
| GetSubscriberCount.

(** One call, with the reading of the clock and what the backend raises
    during it. *)
Record step := Step {
  step_call : call;
  step_now : Z;
  step_fault : option exn
}.

(** The Python values the methods return. *)
Inductive value :=
| VNone
| VBool (b : bool)
| VList (l : list Z)
| VInt (n : Z).

Definition returning {A S} (f : A → value) (r : outcome A * S)
  : outcome value * S :=
  match r with
  | (Ret a, s) => (Ret (f a), s)
  | (Raise e, s) => (Raise e, s)
  end.

Definition sqlite_step (s : step) (db : database) : outcome value * database :=
  match step_call s with
  | Connect =>
      returning (λ _, VNone) (subscriber_db_sqlite.connect (step_fault s) db)
  | AddSubscriber user_id username first_name =>
      returning VBool
        (subscriber_db_sqlite.add_subscriber (step_fault s) (step_now s)
           user_id username first_name db)
  | RemoveSubscriber user_id =>
      returning VBool
        (subscriber_db_sqlite.remove_subscriber (step_fault s) user_id db)
  | GetActiveSubscribers =>
      returning VList
        (subscriber_db_sqlite.get_active_subscribers (step_fault s) db)
  | GetSubscriberCount =>
      returning VInt
        (subscriber_db_sqlite.get_subscriber_count (step_fault s) db)
  end.

Definition postgres_step (DATABASE_URL : option string) (s : step)
    (st : subscriber_db.state) : outcome value * subscriber_db.state :=
  match step_call s with
  | Connect =>
      returning (λ _, VNone)
        (subscriber_db.connect DATABASE_URL (step_fault s) (step_fault s) st)
  | AddSubscriber user_id username first_name =>
      returning (λ _, VNone)
        (subscriber_db.add_subscriber (step_fault s) (step_now s)
           user_id username first_name st)
  | RemoveSubscriber user_id =>
      returning (λ _, VNone)
        (subscriber_db.remove_subscriber (step_fault s) user_id st)
  | GetActiveSubscribers =>
      returning VList (subscriber_db.get_active_subscribers (step_fault s) st)
  | GetSubscriberCount =>
      returning VInt (subscriber_db.get_subscriber_count (step_fault s) st)
  end.

(** Run a sequence of calls; the answers come out in call order. *)
Fixpoint run_calls {S} (f : step → S → outcome value * S) (steps : list step)
    (s : S) : list (outcome value) * S :=
  match steps with
  | [] => ([], s)
  | c :: rest =>
      let '(r, s1) := f c s in
      let '(rs, s2) := run_calls f rest s1 in
      (r :: rs, s2)
  end.

(** The columns on which the two backends agree. *)
Definition display (r : row) : option string * option string * bool :=
  (username r, first_name r, active r).

(** Two stores hold the same subscribers: both are connected, and their
    relations have the same identifiers with the same handle, name and
    [active]. *)
Definition same_subscribers (db : database) (st : subscriber_db.state) : Prop :=
  subscriber_db.pool st = true ∧
  ∃ ts tp : table,
    db = Some ts ∧ subscriber_db.server st = Some tp ∧
    display <$> ts = display <$> tp.

(** Two answers to the same call: equal for the reads up to the order of the
    identifiers, and [True] against [None] for the writes. *)
Inductive same_answer : outcome value → outcome value → Prop :=
| same_write : same_answer (Ret (VBool true)) (Ret VNone)
| same_none : same_answer (Ret VNone) (Ret VNone)
| same_list l1 l2 : l1 ≡ₚ l2 → same_answer (Ret (VList l1)) (Ret (VList l2))
| same_int n : same_answer (Ret (VInt n)) (Ret (VInt n)).

(** ** Strings *)

Definition LF : ascii := "010"%char.
Definition quote : ascii := "034"%char.

(** [c.lower()] on the code points 0..255: the letters A-Z and the capital
    letters of Latin-1 (192..222 but the multiplication sign 215). *)
Definition lower_char (c : ascii) : ascii :=
  let n := nat_of_ascii c in
  if ((65 <=? n)%nat && (n <=? 90)%nat)
     || ((192 <=? n)%nat && (n <=? 222)%nat && negb (n =? 215)%nat)
  then ascii_of_nat (n + 32) else c.

Fixpoint lower (s : string) : string :=
  match s with
  | EmptyString => EmptyString
  | String c s' => String (lower_char c) (lower s')
  end.

(** [sub in s]. *)
Fixpoint contains (sub s : string) : bool :=
  String.prefix sub s
  || match s with
     | EmptyString => false
     | String _ s' => contains sub s'
     end.

(** [s[:n]] for [n >= 0]. *)
Definition str_take (n : Z) (s : string) : string :=
  String.substring 0 (Z.to_nat n) s.

(** [len(s)]. *)
Definition len (s : string) : Z := Z.of_nat (String.length s).

(** [sep.join(texts)]. *)
Definition join (sep : string) (texts : list string) : string :=
  String.concat sep texts.

(** ** Python values

    What [json.loads] can return.  A float is kept as its binary expansion:
    nothing is computed on it but whether it is zero. *)

Inductive pyfloat :=
| Finite (mantissa exponent : Z)
| Infinity (negative : bool)
| NaN.

#[local] Set Warnings "-register-all".
Inductive pyval :=
| PNone
| PBool (b : bool)
| PInt (n : Z)
| PFloat (x : pyfloat)
| PStr (s : string)
| PList (l : list pyval)
| PDict (d : list (string * pyval)).

(** The truth value of an object, as [if v:] tests it. *)
Definition truthy (v : pyval) : bool :=
  match v with
  | PNone => false
  | PBool b => b
  | PInt n => negb (n =? 0)%Z
  | PFloat (Finite m _) => negb (m =? 0)%Z
  | PFloat _ => true
  | PStr s => negb (bool_decide (s = EmptyString))
  | PList l => negb (bool_decide (l = []))
  | PDict d => match d with [] => false | _ :: _ => true end
  end.

(** [d[k]] of a [dict] kept as its items in insertion order. *)
Fixpoint assoc (k : string) (d : list (string * pyval)) : option pyval :=
  match d with
  | [] => None
  | (k', v) :: d' => if String.eqb k k' then Some v else assoc k d'
  end.

(** [d[k] = v]: an existing key keeps its place. *)
Fixpoint assoc_set (k : string) (v : pyval) (d : list (string * pyval))
  : list (string * pyval) :=
  match d with
  | [] => [(k, v)]
  | (k', v') :: d' =>
      if String.eqb k k' then (k, v) :: d' else (k', v') :: assoc_set k v d'
  end.

Definition dict_get (k : string) (v : pyval) : option pyval :=
  match v with
  | PDict d => assoc k d
  | _ => None
  end.

(** ** A decoder for a fragment of JSON

    [json.loads] belongs to the Python library: the monitor takes it from
    its environment (below).  This decoder is the instance used to run the
    monitor on concrete collaborator outputs, through [loads] (below).  It
    reads JSON without fractions, exponents and [\u] escapes, and answers
    [None] elsewhere. *)

Module json_fragment.

Definition is_ws (c : ascii) : bool :=
  let n := nat_of_ascii c in
  (n =? 32)%nat || (n =? 9)%nat || (n =? 10)%nat || (n =? 13)%nat.

Fixpoint skip_ws (s : string) : string :=
  match s with
  | String c s' => if is_ws c then skip_ws s' else s
  | EmptyString => s
  end.

Definition digit (c : ascii) : option Z :=
  let n := nat_of_ascii c in
  if ((48 <=? n)%nat && (n <=? 57)%nat) then Some (Z.of_nat n - 48) else None.

(** The digits at the head of [s], most significant first. *)
Fixpoint digits (acc : Z) (s : string) : Z * string :=
  match s with
  | String c s' =>
      match digit c with
      | Some d => digits (10 * acc + d) s'
      | None => (acc, s)
      end
  | EmptyString => (acc, s)
  end.

Definition starts_number_tail (s : string) : bool :=
  match s with
  | String c _ =>
      let n := nat_of_ascii c in
      (n =? 46)%nat || (n =? 101)%nat || (n =? 69)%nat
  | EmptyString => false
  end.

(** An integer without sign: no leading zero, no fraction, no exponent. *)
Definition natural (s : string) : option (Z * string) :=
  match s with
  | String c s' =>
      match digit c with
      | Some 0 =>
          match s' with
          | String c' _ =>
              if bool_decide (is_Some (digit c')) || starts_number_tail s'
              then None else Some (0, s')
          | EmptyString => Some (0, s')
          end
      | Some _ =>
          let '(n, rest) := digits 0 s in
          if starts_number_tail rest then None else Some (n, rest)
      | None => None
      end
  | EmptyString => None
  end.

Definition unescape (c : ascii) : option ascii :=
  let n := nat_of_ascii c in
  if (n =? 34)%nat then Some c            (* quote *)
  else if (n =? 92)%nat then Some c       (* backslash *)
  else if (n =? 47)%nat then Some c       (* slash *)
  else if (n =? 110)%nat then Some LF
  else if (n =? 116)%nat then Some "009"%char
  else if (n =? 114)%nat then Some "013"%char
  else if (n =? 98)%nat then Some "008"%char
  else if (n =? 102)%nat then Some "012"%char
  else None.

(** The characters up to the closing quote; [s] starts after the opening
    one. *)
Fixpoint chars (s : string) : option (string * string) :=
  match s with
  | EmptyString => None
  | String c s' =>
      let n := nat_of_ascii c in
      if (n =? 34)%nat then Some (EmptyString, s')
      else if (n <? 32)%nat then None
      else if (n =? 92)%nat then
        match s' with
        | String e s'' =>
            match unescape e, chars s'' with
            | Some c', Some (body, rest) => Some (String c' body, rest)
            | _, _ => None
            end
        | EmptyString => None
        end
      else
        match chars s' with
        | Some (body, rest) => Some (String c body, rest)
        | None => None
        end
  end.

Definition expect (word : string) (v : pyval) (s : string)
  : option (pyval * string) :=
  if String.prefix word s
  then Some (v, String.substring (String.length word)
                  (String.length s - String.length word) s)
  else None.

(** [value] reads one value, [elements] the rest of an array after its
    first element, [members] the rest of an object after its first
    member. *)
Fixpoint value (fuel : nat) (s : string) : option (pyval * string) :=
  match fuel with
  | O => None
  | S fuel' =>
      match skip_ws s with
      | EmptyString => None
      | String c s' as s0 =>
          let n := nat_of_ascii c in
          if (n =? 123)%nat then               (* { *)
            match skip_ws s' with
            | String c1 s1 =>
                if (nat_of_ascii c1 =? 125)%nat then Some (PDict [], s1)
                else members fuel' [] (String c1 s1)
            | EmptyString => None
            end
          else if (n =? 91)%nat then           (* [ *)
            match skip_ws s' with
            | String c1 s1 =>
                if (nat_of_ascii c1 =? 93)%nat then Some (PList [], s1)
                else elements fuel' [] (String c1 s1)
            | EmptyString => None
            end
          else if (n =? 34)%nat then
            match chars s' with
            | Some (body, rest) => Some (PStr body, rest)
            | None => None
            end
          else if (n =? 45)%nat then           (* - *)
            match natural s' with
            | Some (k, rest) => Some (PInt (- k), rest)
            | None => None
            end
          else if (n =? 116)%nat then expect "true" (PBool true) s0
          else if (n =? 102)%nat then expect "false" (PBool false) s0
          else if (n =? 110)%nat then expect "null" PNone s0
          else
            match natural s0 with
            | Some (k, rest) => Some (PInt k, rest)
            | None => None
            end
      end
  end
with elements (fuel : nat) (acc : list pyval) (s : string)
  : option (pyval * string) :=
  match fuel with
  | O => None
  | S fuel' =>
      match value fuel' s with
      | Some (v, rest) =>
          match skip_ws rest with
          | String c rest' =>
              if (nat_of_ascii c =? 93)%nat then Some (PList (acc ++ [v]), rest')
              else if (nat_of_ascii c =? 44)%nat
                   then elements fuel' (acc ++ [v]) rest'
                   else None
          | EmptyString => None
          end
      | None => None
      end
  end
with members (fuel : nat) (acc : list (string * pyval)) (s : string)
  : option (pyval * string) :=
  match fuel with
  | O => None
  | S fuel' =>
      match skip_ws s with
      | String c s' =>
          if (nat_of_ascii c =? 34)%nat then
            match chars s' with
            | Some (k, rest) =>
                match skip_ws rest with
                | String c1 rest1 =>
                    if (nat_of_ascii c1 =? 58)%nat then
                      match value fuel' rest1 with
                      | Some (v, rest2) =>
                          match skip_ws rest2 with
                          | String c2 rest3 =>
                              if (nat_of_ascii c2 =? 125)%nat
                              then Some (PDict (assoc_set k v acc), rest3)
                              else if (nat_of_ascii c2 =? 44)%nat
                                   then members fuel' (assoc_set k v acc) rest3
                                   else None
                          | EmptyString => None
                          end
                      | None => None
                      end
                    else None
                | EmptyString => None
                end
            | None => None
            end
          else None
      | EmptyString => None
      end
  end.

(** The whole text must be one value, white space around it apart. *)
Definition loads (s : string) : option pyval :=
  match value (S (String.length s)) s with
  | Some (v, rest) =>
      match skip_ws rest with
      | EmptyString => Some v
      | String _ _ => None
      end
  | None => None
  end.

End json_fragment.

(** ** The world of the monitor *)

(** A message as Telethon yields it, and the [dict] the monitor keeps of
    it. *)
Record tg_message := TgMessage {
  tg_id : Z;
  tg_date : Z;
  tg_text : option string
}.

Record message := Message {
  msg_id : Z;
  msg_date : Z;
  msg_text : string
}.

(** [client.chat.completions.create(...)]: its arguments. *)
Record chat_request := ChatRequest {
  model : string;
  system_content : string;
  user_content : string;
  temperature : Q;
  response_format : string;
  max_tokens : Z
}.

(** What the monitor does to the outside, in the order it does it. *)
Inductive event :=
| EvNewUserClient                      (* [TelegramClient(StringSession(..), ..)] *)
| EvUserConnect                        (* [user_client.connect()] *)
| EvUserIsAuthorized                   (* [user_client.is_user_authorized()] *)
| EvUserIsConnected                    (* [user_client.is_connected()] *)
| EvUserDisconnect                     (* [user_client.disconnect()] *)
| EvGetEntity (name : string)          (* [user_client.get_entity(name)] *)
| EvIterMessages (entity : Z) (limit : Z) (hours : Q)
| EvNewBotClient                       (* [TelegramClient('bot_session.session', ..)] *)
| EvBotStart                           (* [bot_client.start(bot_token=..)] *)
| EvSendMessage (user_id : Z) (text : string)
| EvChatCompletion (request : chat_request)
| EvDbConnect                          (* [subscriber_db.connect()] *)
| EvDbGetActive                        (* [subscriber_db.get_active_subscribers()] *)
| EvDbRemove (user_id : Z)             (* [subscriber_db.remove_subscriber(id)] *)
| EvSleep (seconds : Z).               (* [asyncio.sleep(seconds)] *)

(** What the outside answers.  Every answer may depend on all that happened
    before, the list of events so far. *)
Record env := Env {
  target_channel : string;             (* [TARGET_CHANNEL] *)
  new_user_client : list event → outcome unit;
  user_connect : list event → outcome unit;
  user_is_authorized : list event → outcome bool;
  user_is_connected : list event → bool;
  user_disconnect : list event → outcome unit;
  get_entity : list event → string → outcome Z;
  iter_messages : list event → Z → Z → Q → outcome (list tg_message);
  new_bot_client : list event → outcome unit;
  bot_start : list event → outcome unit;
  send_message : list event → Z → string → outcome unit;
  chat_create : list event → chat_request → outcome (option string);
  (** [json.loads]: the decoded value, or what it raises, which is
      [json.JSONDecodeError] for a text that is not JSON and another
      exception where the decoder gives up on a text (a [RecursionError]
      for arrays nested too deep, a [ValueError] for an integer of more
      digits than the interpreter converts). *)
  json_loads : string → outcome pyval;
  (** [isinstance(e, ValueError)]. *)
  is_ValueError : exn → bool;
  (** What aiosqlite raises in the next call of a store method. *)
  sqlite_fault : list event → option exn;
  (** [datetime.now(SGT)]. *)
  clock : list event → Z;
  (** The body of the distributed message, lines 280-316 of
      [simple_solution.py]: text formatting of the artifact and of the
      clock, which raises where the artifact has not the shape it reads. *)
  render : list event → pyval → outcome string
}.

(** The fields of the [FinancialNewsMonitor] object, the local variable
    [last_message_id] of [monitor_and_summarize], the subscriber database
    file, and the events so far. *)
Record world := World {
  trace : list event;
  user_client : bool;                  (* [self.user_client is not None] *)
  bot_client : bool;                   (* [self.bot_client is not None] *)
  db_ready : bool;
  last_processed_time : Z;
  last_message_id : option Z;
  subscribers : database
}.

Definition with_trace (f : list event → list event) (w : world) : world :=
  World (f (trace w)) (user_client w) (bot_client w) (db_ready w)
        (last_processed_time w) (last_message_id w) (subscribers w).
Definition with_user_client (b : bool) (w : world) : world :=
  World (trace w) b (bot_client w) (db_ready w)
        (last_processed_time w) (last_message_id w) (subscribers w).
Definition with_bot_client (b : bool) (w : world) : world :=
  World (trace w) (user_client w) b (db_ready w)
        (last_processed_time w) (last_message_id w) (subscribers w).
Definition with_db_ready (b : bool) (w : world) : world :=
  World (trace w) (user_client w) (bot_client w) b
        (last_processed_time w) (last_message_id w) (subscribers w).
Definition with_last_processed_time (t : Z) (w : world) : world :=
  World (trace w) (user_client w) (bot_client w) (db_ready w)
        t (last_message_id w) (subscribers w).
Definition with_last_message_id (i : option Z) (w : world) : world :=
  World (trace w) (user_client w) (bot_client w) (db_ready w)
        (last_processed_time w) i (subscribers w).
Definition with_subscribers (db : database) (w : world) : world :=
  World (trace w) (user_client w) (bot_client w) (db_ready w)
        (last_processed_time w) (last_message_id w) db.

(** The world after one more event. *)
Definition record (ev : event) (w : world) : world :=
  with_trace (λ t, (t ++ [ev])%list) w.

(** ** Computations that change the world and may raise *)

Definition M (A : Type) : Type := world → outcome A * world.

#[global] Instance M_ret : MRet M := λ A a w, (Ret a, w).

#[global] Instance M_bind : MBind M := λ A B f m w,
  match m w with
  | (Ret a, w') => f a w'
  | (Raise e, w') => (Raise e, w')
  end.

Definition raise {A} (e : exn) : M A := λ w, (Raise e, w).

(** [try: m  except Exception as e: handler e]. *)
Definition try_except {A} (m : M A) (handler : exn → M A) : M A := λ w,
  match m w with
  | (Ret a, w') => (Ret a, w')
  | (Raise e, w') => handler e w'
  end.

(** [try: m  except SomeError as e: handler e], where [catch] tells the
    exceptions that are instances of [SomeError]. *)
Definition try_except_if {A} (catch : exn → bool) (m : M A)
    (handler : exn → M A) : M A := λ w,
  match m w with
  | (Ret a, w') => (Ret a, w')
  | (Raise e, w') => if catch e then handler e w' else (Raise e, w')
  end.

Definition get {A} (field : world → A) : M A := λ w, (Ret (field w), w).
Definition modify (f : world → world) : M unit := λ w, (Ret tt, f w).

(** Ask the outside: the answer is read off the events so far, and the
    call becomes the last event. *)
Definition ask {A} (answer : list event → outcome A) (ev : event) : M A :=
  λ w, (answer (trace w), record ev w).

(** [for x in l: body x]. *)
Fixpoint for_each {A} (l : list A) (body : A → M unit) : M unit :=
  match l with
  | [] => mret tt
  | x :: l' => body x ≫= λ _, for_each l' body
  end.

(** [asyncio.sleep(seconds)]. *)
Definition sleep (seconds : Z) : M unit :=
  ask (λ _, Ret tt) (EvSleep seconds).

(** ** simple_solution.py: class FinancialNewsMonitor *)

Definition separator : string :=
  String LF (String LF ("---" ++ String LF (String LF EmptyString))).

Definition authentication_failed : exn :=
  Exn "ConnectionError" "User client authentication failed. Check session string.".

(** ["disconnected" in str(e).lower() or "connection" in str(e).lower()]. *)
Definition is_connection_error (e : exn) : bool :=
  contains "disconnected" (lower (exn_text e))
  || contains "connection" (lower (exn_text e)).

(** The fallback of [summarize] for an answer that is not JSON: the one
    of [except json.JSONDecodeError]. *)
Definition parse_fallback (result : string) : pyval :=
  PDict [
    ("summary",
       PStr ("Summary could not be generated in the correct format. Here's the raw output: "
             ++ str_take 500 result ++ "..."));
    ("potentially_impacted_stocks", PList []);
    ("market_sectors", PList []);
    ("sentiment", PStr "neutral");
    ("key_points", PList [PStr "Error: Unable to parse structured data"]);
    ("market_implications", PStr EmptyString)
  ].

(** The fallback of [summarize] for a request that raised, and for an
    answer on which [json.loads] raised another exception than
    [json.JSONDecodeError]. *)
Definition error_fallback : pyval :=
  PDict [
    ("summary", PStr "Error generating summary");
    ("potentially_impacted_stocks", PList []);
    ("market_sectors", PList []);
    ("sentiment", PStr "neutral");
    ("key_points", PList [PStr "Failed to analyze news due to an error"]);
    ("market_implications", PStr EmptyString)
  ].

(** [combined_text], after the truncation of lines 170-173. *)
Definition combined_text (messages : list message) : string :=
  let message_texts := msg_text <$> messages in
  let combined_text := join separator message_texts in
  if (15000 <? len combined_text)%Z
  then str_take 15000 combined_text ++ "...(truncated)"
  else combined_text.

Section monitor.

(** The outside, and the system prompt: the literal of lines 175-223. *)
Variable E : env.
Variable prompt : string.

Definition db_connect : M unit := λ w,
  let '(r, db) :=
    subscriber_db_sqlite.connect (sqlite_fault E (trace w)) (subscribers w) in
  (r, record EvDbConnect (with_subscribers db w)).

Definition db_get_active_subscribers : M (list Z) := λ w,
  let '(r, db) :=
    subscriber_db_sqlite.get_active_subscribers
      (sqlite_fault E (trace w)) (subscribers w) in
  (r, record EvDbGetActive (with_subscribers db w)).

Definition db_remove_subscriber (user_id : Z) : M bool := λ w,
  let '(r, db) :=
    subscriber_db_sqlite.remove_subscriber
      (sqlite_fault E (trace w)) user_id (subscribers w) in
  (r, record (EvDbRemove user_id) (with_subscribers db w)).

Definition connect : M unit :=
  _ ← ask (new_user_client E) EvNewUserClient;
  _ ← modify (with_user_client true);
  _ ← ask (user_connect E) EvUserConnect;
  authorized ← ask (user_is_authorized E) EvUserIsAuthorized;
  if negb authorized then raise authentication_failed
  else
    _ ← ask (new_bot_client E) EvNewBotClient;
    _ ← modify (with_bot_client true);
    _ ← ask (bot_start E) EvBotStart;
    ready ← get db_ready;
    if negb ready then
      _ ← db_connect;
      modify (with_db_ready true)
    else mret tt.

(** [{"id": .., "date": .., "text": ..}] for every message with a text. *)
Definition keep_texts (l : list tg_message) : list message :=
  omap (λ m, match tg_text m with
             | Some text =>
                 if bool_decide (text = EmptyString) then None
                 else Some (Message (tg_id m) (tg_date m) text)
             | None => None
             end) l.

(** Lines 115-123: the entity of the channel, or [None] where the method
    returns the empty list because neither name resolves. *)
Definition resolve_channel : M (option Z) :=
  let at_name := String "@" (target_channel E) in
  try_except_if (is_ValueError E)
    (entity ← ask (λ t, get_entity E t (target_channel E))
                  (EvGetEntity (target_channel E));
     mret (Some entity))
    (λ _,
       try_except_if (is_ValueError E)
         (entity ← ask (λ t, get_entity E t at_name) (EvGetEntity at_name);
          mret (Some entity))
         (λ _, mret None)).

(** The part of [fetch_recent_messages] under its outer [try]. *)
Definition fetch_body (hours : Q) : M (list message) :=
  resolved ← resolve_channel;
  match resolved with
  | None => mret []
  | Some entity =>
      let message_limit := if Qle_bool 3 hours then 500 else 50 in
      found ← ask (λ t, iter_messages E t entity message_limit hours)
                  (EvIterMessages entity message_limit hours);
      mret (keep_texts found)
  end.

Definition fetch_recent_messages (hours : Q) : M (list message) :=
  has_client ← get user_client;
  _ ← (if negb has_client then connect else mret tt);
  connected ← ask (λ t, Ret (user_is_connected E t)) EvUserIsConnected;
  reconnected ←
    (if negb connected then
       try_except
         (_ ← ask (user_connect E) EvUserConnect;
          ask (user_is_authorized E) EvUserIsAuthorized)
         (λ _, mret false)
     else mret true);
  if negb reconnected then mret []
  else
    try_except (fetch_body hours)
      (λ e,
         _ ← (if is_connection_error e
              then try_except (ask (user_disconnect E) EvUserDisconnect)
                              (λ _, mret tt)
              else mret tt);
         mret []).

Definition chat_request_of (combined_text : string) : chat_request :=
  ChatRequest "gpt-4o-mini" prompt
    ("News updates to analyze:" ++ String LF combined_text)
    (2 # 10) "json_object" 1000.

Definition type_error : exn :=
  Exn "TypeError" "the JSON object must be str, bytes or bytearray, not NoneType".

(** [except json.JSONDecodeError]: the exceptions of that class, which
    has no subclass. *)
Definition is_JSONDecodeError (e : exn) : bool :=
  bool_decide (exn_class e = "JSONDecodeError").

(** [json.loads(result)]. *)
Definition decode (result : string) : M pyval :=
  λ w, (json_loads E result, w).

Definition summarize (messages : list message) : M pyval :=
  match messages with
  | [] => mret PNone
  | _ :: _ =>
      let request := chat_request_of (combined_text messages) in
      try_except
        (result ← ask (λ t, chat_create E t request) (EvChatCompletion request);
         match result with
         | None => raise type_error
         | Some result =>
             try_except_if is_JSONDecodeError
               (decode result)
               (λ _, mret (parse_fallback result))
         end)
        (λ _, mret error_fallback)
  end.

(** The body of [for user_id in subscribers]. *)
Definition send_to (body : string) (user_id : Z) : M unit :=
  try_except
    (_ ← ask (λ t, send_message E t user_id body) (EvSendMessage user_id body);
     sleep 1)
    (λ _,
       try_except (_ ← db_remove_subscriber user_id; mret tt)
                  (λ _, mret tt)).

(** Lines 280-316: the message is formatted when it is known that there
    are subscribers. *)
Definition format_message (summary : pyval) : M string :=
  λ w, (render E (trace w) summary, w).

Definition send_summary_to_subscribers (summary : pyval) : M unit :=
  if negb (truthy summary) then mret tt
  else
    subscribers ← db_get_active_subscribers;
    match subscribers with
    | [] => mret tt
    | _ :: _ =>
        body ← format_message summary;
        for_each subscribers (send_to body)
    end.

(** [self.last_processed_time = datetime.now(SGT)]. *)
Definition stamp_last_processed_time : M unit :=
  λ w, (Ret tt, with_last_processed_time (clock E (trace w)) w).

(** Lines 356-365: what is done with the fetched batch. *)
Definition process_batch (messages : list message) : M unit :=
  last ← get last_message_id;
  match messages with
  | first :: _ =>
      if bool_decide (last = None)
         || negb (bool_decide (Some (msg_id first) = last))
      then
        _ ← modify (with_last_message_id (Some (msg_id first)));
        summary ← summarize messages;
        if truthy summary then
          _ ← send_summary_to_subscribers summary;
          stamp_last_processed_time
        else mret tt
      else mret tt
  | [] => mret tt
  end.

(** The [try] block of one turn of [while True]. *)
Definition cycle_body (interval_minutes : Z) : M unit :=
  messages ← fetch_recent_messages (interval_minutes # 60);
  _ ← process_batch messages;
  sleep (interval_minutes * 60).

(** The [except Exception as e] block. *)
Definition cycle_handler (e : exn) : M unit :=
  _ ← (if is_connection_error e then
         try_except
           (has_client ← get user_client;
            _ ← (if has_client : bool
                 then ask (user_disconnect E) EvUserDisconnect
                 else mret tt);
            _ ← sleep 5;
            connect)
           (λ _, mret tt)
       else mret tt);
  sleep 60.

Definition cycle (interval_minutes : Z) : M unit :=
  try_except (cycle_body interval_minutes) cycle_handler.

(** [monitor_and_summarize], cut after [turns] turns of its loop. *)
Fixpoint monitor_turns (interval_minutes : Z) (turns : nat) : M unit :=
  match turns with
  | O => mret tt
  | S n => _ ← cycle interval_minutes; monitor_turns interval_minutes n
  end.

Definition monitor_and_summarize (interval_minutes : Z) (turns : nat) : M unit :=
  _ ← modify (with_last_message_id None);
  monitor_turns interval_minutes turns.

End monitor.

(** [main]: [interval = 5 if args.test else 180], handed to [run] and by
    it to [monitor_and_summarize]. *)
Definition main_interval (test : bool) : Z := if test then 5 else 180.

(** The default of the parameter [interval_minutes] of [run] and of
    [monitor_and_summarize]. *)
Definition default_interval_minutes : Z := 180.

(** ** config/settings.py *)

Module settings.
Section getenv.
(** [int] on a [str], which raises [ValueError] where the text is not a
    number. *)
Variable int_of_str : string → outcome Z.

(** [int(os.getenv(key, default))] for a default that is an [int]. *)
Definition int_getenv (environ : gmap string string) (key : string)
    (default : Z) : outcome Z :=
  match environ !! key with
  | Some text => int_of_str text
  | None => Ret default
  end.

Definition SUMMARY_INTERVAL (environ : gmap string string) : outcome Z :=
  int_getenv environ "SUMMARY_INTERVAL" 300.

Definition TESTING_INTERVAL (environ : gmap string string) : outcome Z :=
  int_getenv environ "TESTING_INTERVAL" 5.
End getenv.
End settings.

(** ** Relations between worlds

    [respects R m]: running [m] takes every world to an [R]-related one,
    whether it returns or raises. *)

Definition respects {A} (R : relation world) (m : M A) : Prop :=
  ∀ w, R w (m w).2.

(** The relations that hold across everything the monitor does to the
    outside and to its clients and store. *)
Class Allows (R : relation world) : Prop := {
  #[global] allows_preorder :: PreOrder R;
  allows_event ev w : R w (record ev w);
  allows_user_client w : R w (with_user_client true w);
  allows_bot_client w : R w (with_bot_client true w);
  allows_db_ready w : R w (with_db_ready true w);
  allows_subscribers db w : R w (with_subscribers db w)
}.

(** The trace only grows. *)
Definition grows (w w' : world) : Prop :=
  ∃ evs, trace w' = (trace w ++ evs)%list.

(** The cursor stays, and the trace only grows. *)
Definition cursor_kept (w w' : world) : Prop :=
  last_message_id w' = last_message_id w ∧ grows w w'.

(** The cursor and the time of the last distribution stay, and the trace
    only grows. *)
Definition monitor_kept (w w' : world) : Prop :=
  last_processed_time w' = last_processed_time w ∧ cursor_kept w w'.

(** The reader client, once made, stays. *)
Definition reader_kept (w w' : world) : Prop :=
  user_client w = true → user_client w' = true.

(** ** Scenarios *)

Definition alice : call := AddSubscriber 42 (Some "alice") (Some "Alice").

(** Subscribing twice, at times 100 and 200. *)
Definition resubscribe : list step :=
  [Step Connect 0 None; Step alice 100 None; Step alice 200 None].

Definition fresh_postgres : subscriber_db.state := subscriber_db.State false None.

Definition connection_lost : exn :=
  Exn "ConnectionError" "connection was closed in the middle of operation".

(** The schema of the artifact, as the specification words it: the fields
    that every artifact has. *)
Definition artifact_fields : list string :=
  ["summary"; "potentially_impacted_stocks"; "market_sectors"; "sentiment";
   "key_points"].

Definition artifact_complete (v : pyval) : bool :=
  forallb (λ k, bool_decide (is_Some (dict_get k v))) artifact_fields.

(** The sends and the removals among some events, in their order. *)
Definition sends (evs : list event) : list (Z * string) :=
  omap (λ ev, match ev with
              | EvSendMessage user_id text => Some (user_id, text)
              | _ => None
              end) evs.

Definition removals (evs : list event) : list Z :=
  omap (λ ev, match ev with
              | EvDbRemove user_id => Some user_id
              | _ => None
              end) evs.

(** The events of a [connect] in which nothing fails. *)
Definition connect_events : list event :=
  [EvNewUserClient; EvUserConnect; EvUserIsAuthorized; EvNewBotClient;
   EvBotStart; EvDbConnect].

(** A text of [n] times the character [c]. *)
Fixpoint stutter (n : nat) (c : ascii) : string :=
  match n with
  | O => EmptyString
  | S n' => String c (stutter n' c)
  end.

(** An outside that answers the same whatever happened before. *)
Record script := Script {
  script_batch : list tg_message;          (* what the channel holds *)
  script_reply : outcome (option string);  (* what the collaborator answers *)
  script_unreachable : list Z;             (* whom no message reaches *)
  script_link : outcome unit               (* what [user_client.connect()] does *)
}.

Definition key_error (key : string) : exn :=
  Exn "KeyError" ("'" ++ key ++ "'").

(** A rendering that reads the summary and asks for the other fields. *)
Definition plain_render (summary : pyval) : outcome string :=
  match dict_get "summary" summary with
  | Some (PStr text) =>
      if bool_decide (is_Some (dict_get "key_points" summary)) then Ret text
      else Raise (key_error "key_points")
  | _ => Raise (key_error "summary")
  end.

(** What [json.loads] raises for a text that is not JSON, and for a text
    that opens more arrays than the interpreter nests calls. *)
Definition json_decode_error : exn :=
  Exn "JSONDecodeError" "Expecting value".

Definition recursion_error : exn :=
  Exn "RecursionError"
      "maximum recursion depth exceeded while decoding a JSON array from a unicode string".

(** [sys.getrecursionlimit()] as the interpreter starts. *)
Definition recursion_limit : nat := 1000.

(** The number of [[] that a text starts with. *)
Fixpoint opened_arrays (s : string) : nat :=
  match s with
  | String c s' => if (nat_of_ascii c =? 91)%nat then S (opened_arrays s') else O
  | EmptyString => O
  end.

(** [json.loads] on the fragment of JSON that [json_fragment] reads. *)
Definition loads (s : string) : outcome pyval :=
  if (recursion_limit <? opened_arrays s)%nat then Raise recursion_error
  else
    match json_fragment.loads s with
    | Some v => Ret v
    | None => Raise json_decode_error
    end.

Definition scripted (s : script) : env := {|
  target_channel := "marketfeed";
  new_user_client := λ _, Ret tt;
  user_connect := λ _, script_link s;
  user_is_authorized := λ _, Ret true;
  user_is_connected := λ _, true;
  user_disconnect := λ _, Ret tt;
  get_entity := λ _ _, Ret 1001;
  iter_messages := λ _ _ _ _, Ret (script_batch s);
  new_bot_client := λ _, Ret tt;
  bot_start := λ _, Ret tt;
  send_message := λ _ user_id _,
    if bool_decide (user_id ∈ script_unreachable s)
    then Raise (Exn "UserIsBlockedError" "User is blocked")
    else Ret tt;
  chat_create := λ _ _, script_reply s;
  json_loads := loads;
  is_ValueError := λ e, bool_decide (exn_class e = "ValueError");
  sqlite_fault := λ _, None;
  clock := λ t, Z.of_nat (List.length t);
  render := λ _, plain_render
|}.

Definition quoted (s : string) : string :=
  String quote (s ++ String quote EmptyString).

(** [{"summary": "x"}]. *)
Definition partial_output : string :=
  "{" ++ quoted "summary" ++ ": " ++ quoted "x" ++ "}".

Definition two_messages : list tg_message :=
  [TgMessage 100 1700000600 (Some "Fed holds rates");
   TgMessage 99 1700000000 (Some "Oil slips below 70")].

Definition started (db : database) : world := {|
  trace := [];
  user_client := true;
  bot_client := true;
  db_ready := true;
  last_processed_time := 0;
  last_message_id := None;
  subscribers := db
|}.

Definition three_subscribers : table :=
  <[1 := Row (Some "ann") (Some "Ann") 10 true]>
    (<[2 := Row (Some "bob") (Some "Bob") 20 true]>
       (<[3 := Row None (Some "Cy") 30 true]> ∅)).

Definition link_down : exn :=
  Exn "ConnectionError" "Connection to Telegram failed 5 time(s)".

(** A monitor whose clients have not been made yet. *)
Definition cold (db : database) : world := {|
  trace := [];
  user_client := false;
  bot_client := false;
  db_ready := false;
  last_processed_time := 0;
  last_message_id := None;
  subscribers := db
|}.


(** An artifact with the fields that [plain_render] asks for. *)
Definition calm : pyval :=
  PDict [("summary", PStr "Markets are calm."); ("key_points", PList [])].

(** Nobody reaches subscriber 2. *)
Definition bob_unreachable : env :=
  scripted (Script two_messages (Ret None) [2] (Ret tt)).


(** * Further definitions *)

(** An identifier whose row is inactive or absent. *)
Definition inactive_in (t : table) (user_id : Z) : bool :=
  bool_decide (user_id ∉ select_active t).

(** The row of [user_id] keeps its subscription time. *)
Definition keeps_subscription_times (t t' : table) : Prop :=
  ∀ user_id r, t !! user_id = Some r →
    ∃ r', t' !! user_id = Some r' ∧ subscribed_at r' = subscribed_at r.

(** Between two worlds no row was added, deleted or changed but from active
    to inactive. *)
Definition only_deactivates (w w' : world) : Prop :=
  ∀ t : table, subscribers w = Some t →
    ∃ t' : table,
      subscribers w' = Some t' ∧ dom t' = dom t
      ∧ ∀ j, t' !! j = t !! j ∨ t' !! j = deactivate <$> t !! j.

(** The relations that hold across every single thing the monitor loop does
    to its world. *)
Class Bears (R : relation world) : Prop := {
  #[global] bears_preorder :: PreOrder R;
  bears_event ev w : R w (record ev w);
  bears_user_client w : R w (with_user_client true w);
  bears_bot_client w : R w (with_bot_client true w);
  bears_db_ready w : R w (with_db_ready true w);
  bears_cursor i w : R w (with_last_message_id i w);
  bears_time now w : R w (with_last_processed_time now w);
  bears_create w : R w (with_subscribers (Some (default ∅ (subscribers w))) w);
  bears_deactivate user_id w (t : table) :
    subscribers w = Some t →
    R w (with_subscribers (Some (alter deactivate user_id t)) w)
}.

(** A scripted outside whose reader is not authorized. *)
Definition unauthorized (E : env) : env := {|
  target_channel := target_channel E;
  new_user_client := new_user_client E;
  user_connect := user_connect E;
  user_is_authorized := λ _, Ret false;
  user_is_connected := user_is_connected E;
  user_disconnect := user_disconnect E;
  get_entity := get_entity E;
  iter_messages := iter_messages E;
  new_bot_client := new_bot_client E;
  bot_start := bot_start E;
  send_message := send_message E;
  chat_create := chat_create E;
  json_loads := json_loads E;
  is_ValueError := is_ValueError E;
  sqlite_fault := sqlite_fault E;
  clock := clock E;
  render := render E
|}.

(** An outside like [E] but for the answers of [get_entity]. *)
Definition with_get_entity (answer : list event → string → outcome Z) (E : env)
  : env := {|
  target_channel := target_channel E;
  new_user_client := new_user_client E;
  user_connect := user_connect E;
  user_is_authorized := user_is_authorized E;
  user_is_connected := user_is_connected E;
  user_disconnect := user_disconnect E;
  get_entity := answer;
  iter_messages := iter_messages E;
  new_bot_client := new_bot_client E;
  bot_start := bot_start E;
  send_message := send_message E;
  chat_create := chat_create E;
  json_loads := json_loads E;
  is_ValueError := is_ValueError E;
  sqlite_fault := sqlite_fault E;
  clock := clock E;
  render := render E
|}.

Definition no_such_channel : exn :=
  Exn "ValueError" "No user has marketfeed as username; check the connection".

(** A channel with one message without text and one with the empty text. *)
Definition mixed_messages : list tg_message :=
  [TgMessage 100 1700000600 (Some "Fed holds rates");
   TgMessage 99 1700000300 None;
   TgMessage 98 1700000200 (Some EmptyString);
   TgMessage 97 1700000000 (Some "Oil slips below 70")].

(** ** simple_solution.py: [FinancialNewsMonitor.__init__]

    The module constants read from the environment; [None] is an unset
    variable. *)
Record credentials := Credentials {
  API_ID : option string;
  API_HASH : option string;
  SESSION_STRING : option string;
  BOT_TOKEN : option string;
  OPENAI_API_KEY : option string
}.

(** The truth value of [os.getenv(..)]: unset and empty are false. *)
Definition is_set (variable : option string) : bool :=
  match variable with
  | None => false
  | Some text => negb (bool_decide (text = EmptyString))
  end.

Definition missing_credentials : exn :=
  Exn "ValueError" "Missing required credentials for both user and bot clients.".

Definition missing_openai_key : exn :=
  Exn "ValueError" "Missing OpenAI API key".

(** The fields of the new object, with the events so far and the database
    file as they are; [now] is the reading of [datetime.now(SGT)]. *)
Definition init (c : credentials) (now : Z) (history : list event)
    (db : database) : outcome world :=
  if negb (forallb is_set [API_ID c; API_HASH c; SESSION_STRING c; BOT_TOKEN c])
  then Raise missing_credentials
  else if negb (is_set (OPENAI_API_KEY c)) then Raise missing_openai_key
  else Ret {|
    trace := history;
    user_client := false;
    bot_client := false;
    db_ready := false;
    last_processed_time := now;
    last_message_id := None;
    subscribers := db
  |}.

(** [{"summary": "Markets are calm.", "key_points": []}]. *)
Definition calm_output : string :=
  "{" ++ quoted "summary" ++ ": " ++ quoted "Markets are calm." ++ ", "
  ++ quoted "key_points" ++ ": []}".

Definition all_set : credentials :=
  Credentials (Some "12345") (Some "0123456789abcdef") (Some "1BVtsOK4Bu")
    (Some "110201543:AAHdqTcv") (Some "sk-test").

(** Between two worlds no client and no store connection was given up, and
    the events of the first are the first events of the second. *)
Definition keeps_connections (w w' : world) : Prop :=
  (user_client w = true → user_client w' = true)
  ∧ (bot_client w = true → bot_client w' = true)
  ∧ (db_ready w = true → db_ready w' = true)
  ∧ trace w `prefix_of` trace w'.
(** * Properties of the stores *)

Section store_facts.
Implicit Types (t : table) (db : database) (r : row).

Lemma rows_of_lookup t user_id r :
  t !! user_id = Some r → rows_of user_id t = [(user_id, r)].
Proof.
  intros Hr. unfold rows_of.
  assert (Hin : (user_id, r) ∈ map_to_list t) by by apply elem_of_map_to_list.
  pose proof (NoDup_fst_map_to_list t) as Hnd.
  induction (map_to_list t) as [|[k x] l IH]; [by apply elem_of_nil in Hin|].
  rewrite fmap_cons in Hnd. apply NoDup_cons in Hnd as [Hk Hnd]. simpl in Hk.
  rewrite filter_cons. simpl. destruct (decide (k = user_id)) as [->|Hne].
  - apply elem_of_cons in Hin as [Heq|Hin].
    + inversion Heq; subst. f_equal.
      clear IH. induction l as [|[k' x'] l IH]; [done|].
      rewrite filter_cons. simpl. destruct (decide (k' = user_id)) as [->|_].
      * exfalso. apply Hk. rewrite fmap_cons. simpl. apply elem_of_cons. by left.
      * apply IH.
        -- intros Hk'. apply Hk. rewrite fmap_cons. apply elem_of_cons. by right.
        -- rewrite fmap_cons in Hnd. by apply NoDup_cons in Hnd as [_ ?].
    + exfalso. apply Hk. apply list_elem_of_fmap. by exists (user_id, r).
  - apply IH; [|done]. apply elem_of_cons in Hin as [Heq|Hin]; [|done].
    inversion Heq; congruence.
Qed.

Lemma select_active_display t :
  select_active t =
  (filter (λ kd, kd.2.2 = true) (map_to_list (display <$> t))).*1.
Proof.
  unfold select_active. rewrite map_to_list_fmap.
  induction (map_to_list t) as [|[k r] l IH]; [done|].
  rewrite fmap_cons, !filter_cons. simpl.
  destruct (decide (active r = true)); csimpl; [f_equal|]; exact IH.
Qed.

Lemma count_active_select t :
  count_active t = Z.of_nat (List.length (select_active t)).
Proof. unfold count_active, select_active. by rewrite length_fmap. Qed.

Lemma elem_of_select_active t user_id :
  user_id ∈ select_active t ↔ ∃ r, t !! user_id = Some r ∧ active r = true.
Proof.
  unfold select_active. rewrite list_elem_of_fmap. split.
  - intros ([k r] & -> & [Hact Hin]%list_elem_of_filter).
    exists r. split; [by apply elem_of_map_to_list|done].
  - intros (r & Hr & Hact). exists (user_id, r). split; [done|].
    apply list_elem_of_filter. split; [done|by apply elem_of_map_to_list].
Qed.

Lemma NoDup_select_active t : NoDup (select_active t).
Proof.
  unfold select_active.
  apply (sublist_NoDup _ (map_to_list t).*1); [apply NoDup_fst_map_to_list|].
  apply fmap_sublist, sublist_filter.
Qed.

Lemma filter_singleton_NoDup (k : Z) (l : list Z) :
  NoDup l → k ∈ l → filter (λ j, j = k) l = [k].
Proof.
  induction 1 as [|x l Hx Hnd IH]; intros Hin; [by apply elem_of_nil in Hin|].
  rewrite filter_cons. destruct (decide (x = k)) as [->|Hne].
  - f_equal. clear IH Hin Hnd. induction l as [|y l IH]; [done|].
    rewrite filter_cons. destruct (decide (y = k)) as [->|_].
    + exfalso. apply Hx. by left.
    + apply IH. intros Hk. apply Hx. by right.
  - apply IH. apply elem_of_cons in Hin as [?|?]; [congruence|done].
Qed.

Lemma display_deactivate t tp user_id :
  display <$> t = display <$> tp →
  display <$> alter deactivate user_id t
  = display <$> alter deactivate user_id tp.
Proof.
  intros Heq.
  rewrite !(fmap_alter display deactivate (λ d, (d.1, false))) by done.
  by rewrite Heq.
Qed.

Lemma display_upsert t tp user_id u f now now' :
  display <$> t = display <$> tp →
  display <$> <[user_id := Row u f now true]> t
  = display <$> subscriber_db.upsert user_id u f now' tp.
Proof.
  intros Heq. unfold subscriber_db.upsert.
  destruct (tp !! user_id); by rewrite !fmap_insert, Heq.
Qed.
End store_facts.

(** ** Failure signalling (C3) *)

(** C3, as the code has it: on the embedded file-based backend
    [add_subscriber] and [remove_subscriber] never raise, whatever the driver
    raises and whatever the state of the file: the caller gets [True] when
    the statement was committed and [False], with the database untouched,
    when it was not.  The networked backend re-raises every failure. *)
Theorem sqlite_writes_return_a_boolean
    (fault : option exn) (now user_id : Z) (u f : option string) (db : database) :
  (∃ b db',
      subscriber_db_sqlite.add_subscriber fault now user_id u f db = (Ret b, db')
      ∧ (b = true ↔ fault = None ∧ is_Some db)
      ∧ (b = false → db' = db))
  ∧ (∃ b db',
      subscriber_db_sqlite.remove_subscriber fault user_id db = (Ret b, db')
      ∧ (b = true ↔ fault = None ∧ is_Some db)
      ∧ (b = false → db' = db))
  ∧ (∀ e st,
      is_raise (subscriber_db.add_subscriber (Some e) now user_id u f st).1 = true
      ∧ is_raise (subscriber_db.remove_subscriber (Some e) user_id st).1 = true).
Proof.
  split_and!.
  - unfold subscriber_db_sqlite.add_subscriber,
      subscriber_db_sqlite.insert_or_replace.
    destruct fault as [e|], db as [t|]; eexists _, _;
      (split; [reflexivity|]); split; try done;
      split; try done; intros [? ?]; try done; by destruct (is_Some_None (A:=table)).
  - unfold subscriber_db_sqlite.remove_subscriber,
      subscriber_db_sqlite.update_inactive.
    destruct fault as [e|], db as [t|]; eexists _, _;
      (split; [reflexivity|]); split; try done;
      split; try done; intros [? ?]; try done; by destruct (is_Some_None (A:=table)).
  - intros e [[] srv]; done.
Qed.

(** C3 as stated fails on the networked backend: a failure of the driver
    comes back to the caller as an exception, not as a result. *)
Lemma postgres_add_subscriber_raises :
  subscriber_db.add_subscriber (Some connection_lost) 100 42
    (Some "alice") (Some "Alice") (subscriber_db.State true (Some ∅))
  = (Raise connection_lost, subscriber_db.State true (Some ∅))
  ∧ ¬ (∀ fault now user_id u f st, ∃ r st',
         subscriber_db.add_subscriber fault now user_id u f st = (Ret r, st')).
Proof.
  split; [reflexivity|]. intros H.
  destruct (H (Some connection_lost) 100 42 None None fresh_postgres)
    as (r & st' & Hr).
  discriminate Hr.
Qed.

(** ** Add, remove, add (C5) *)

(** C5, as the code has it: on a store whose relation exists, adding
    [user_id], removing it and adding it again with a new handle and name
    succeeds three times where the driver does not fail, and leaves exactly
    one row for [user_id], active, with the new handle and name; after the
    removal the row is still stored, inactive; and [remove_subscriber]
    deletes no row of any store, whatever happens.  On a store whose
    relation does not exist yet, as it is before [connect], each of the
    three calls answers [False] and nothing is stored. *)
Theorem add_remove_add_reactivates
    (t : table) (user_id : Z) (h1 n1 h2 n2 : option string) (now1 now3 : Z) :
  let s1 := subscriber_db_sqlite.add_subscriber None now1 user_id h1 n1 (Some t) in
  let s2 := subscriber_db_sqlite.remove_subscriber None user_id s1.2 in
  let s3 := subscriber_db_sqlite.add_subscriber None now3 user_id h2 n2 s2.2 in
  (s1.1 = Ret true ∧ s2.1 = Ret true ∧ s3.1 = Ret true)
  ∧ (∃ t2, s2.2 = Some t2 ∧ rows_of user_id t2 = [(user_id, Row h1 n1 now1 false)])
  ∧ (∃ t3, s3.2 = Some t3 ∧ rows_of user_id t3 = [(user_id, Row h2 n2 now3 true)])
  ∧ (∀ fault uid (t0 : table), ∃ t',
        (subscriber_db_sqlite.remove_subscriber fault uid (Some t0)).2 = Some t'
        ∧ dom t' = dom t0)
  ∧ (∀ fault1 fault2 fault3,
        let r1 := subscriber_db_sqlite.add_subscriber
                    fault1 now1 user_id h1 n1 None in
        let r2 := subscriber_db_sqlite.remove_subscriber fault2 user_id r1.2 in
        let r3 := subscriber_db_sqlite.add_subscriber
                    fault3 now3 user_id h2 n2 r2.2 in
        r1.1 = Ret false ∧ r2.1 = Ret false ∧ r3.1 = Ret false ∧ r3.2 = None).
Proof.
  simpl. split_and!; try done.
  - eexists; split; [done|]. apply rows_of_lookup.
    rewrite lookup_alter, decide_True by done. by rewrite lookup_insert_eq.
  - eexists; split; [done|]. apply rows_of_lookup. by rewrite lookup_insert_eq.
  - intros [e|] uid t0; eexists; (split; [reflexivity|]); [done|].
    apply dom_alter_L.
  - by intros [e1|] [e2|] [e3|].
Qed.

(** C5 as stated fails on a store whose relation does not exist, the state
    in which [main] adds the administrator (lines 622-628) before [run]
    reaches [connect]: the three calls answer [False] and no row is
    stored. *)
Lemma add_remove_add_before_connect :
  let sequence (db : database) user_id h1 n1 h2 n2 now1 now3 :=
    let s1 := subscriber_db_sqlite.add_subscriber None now1 user_id h1 n1 db in
    let s2 := subscriber_db_sqlite.remove_subscriber None user_id s1.2 in
    subscriber_db_sqlite.add_subscriber None now3 user_id h2 n2 s2.2 in
  sequence None 42 (Some "admin") (Some "Admin") (Some "alice") (Some "Alice")
           100 200
  = (Ret false, None)
  ∧ ¬ (∀ db user_id h1 n1 h2 n2 now1 now3, ∃ t3,
         (sequence db user_id h1 n1 h2 n2 now1 now3).2 = Some t3
         ∧ rows_of user_id t3 = [(user_id, Row h2 n2 now3 true)]).
Proof.
  cbv zeta. split; [reflexivity|]. intros H.
  destruct (H None 42 None None None None 100 200) as (t3 & Hstate & _).
  discriminate Hstate.
Qed.

(** The same sequence on the networked backend. *)
Lemma postgres_add_remove_add
    (t : table) (user_id : Z) (h1 n1 h2 n2 : option string) (now1 now3 : Z) :
  let st := subscriber_db.State true (Some t) in
  let s1 := subscriber_db.add_subscriber None now1 user_id h1 n1 st in
  let s2 := subscriber_db.remove_subscriber None user_id s1.2 in
  let s3 := subscriber_db.add_subscriber None now3 user_id h2 n2 s2.2 in
  ∃ t3 r, subscriber_db.server s3.2 = Some t3
          ∧ rows_of user_id t3 = [(user_id, r)]
          ∧ display r = (h2, n2, true).
Proof.
  simpl. unfold subscriber_db.upsert.
  destruct (t !! user_id) as [old|] eqn:Hold;
    (eexists _, _; split; [reflexivity|]);
    rewrite lookup_alter, decide_True, lookup_insert_eq by done; simpl;
    (split; [apply rows_of_lookup; by rewrite lookup_insert_eq|done]).
Qed.

(** ** The two backends side by side (C4) *)

Lemma same_subscribers_step url s db st :
  subscriber_db.url_missing url = false →
  step_fault s = None →
  same_subscribers db st →
  same_answer (sqlite_step s db).1 (postgres_step url s st).1
  ∧ same_subscribers (sqlite_step s db).2 (postgres_step url s st).2.
Proof.
  intros Hurl Hf (Hpool & ts & tp & -> & Htp & Heq).
  destruct st as [p srv]; simpl in *; subst p srv.
  destruct s as [c now fault]; simpl in *; subst fault.
  unfold sqlite_step, postgres_step; destruct c as [|uid u f|uid| |]; simpl.
  - unfold subscriber_db.connect. rewrite Hurl. simpl.
    split; [constructor|]. split; [done|]. by exists ts, tp.
  - split; [constructor|]. split; [done|].
    eexists _, _; split_and!; [done..|]. by apply display_upsert.
  - split; [constructor|]. split; [done|].
    eexists _, _; split_and!; [done..|]. by apply display_deactivate.
  - split; [|split; [done|by exists ts, tp]].
    constructor. by rewrite !select_active_display, Heq.
  - split; [|split; [done|by exists ts, tp]].
    rewrite !count_active_select, !select_active_display, Heq. constructor.
Qed.

(** C4, as the code has it: started on stores that hold the same
    subscribers and run on the same calls without backend failures, the two
    backends keep holding the same subscribers (identifiers, handle, name and
    [active]; not the subscription time), give the same active identifiers
    up to order and the same count, and answer a successful write with
    [True] on the file backend and [None] on the networked one. *)
Theorem backends_agree_up_to_timestamp
    (url : option string) (steps : list step) (db : database)
    (st : subscriber_db.state) :
  subscriber_db.url_missing url = false →
  Forall (λ s, step_fault s = None) steps →
  same_subscribers db st →
  Forall2 same_answer (run_calls sqlite_step steps db).1
                      (run_calls (postgres_step url) steps st).1
  ∧ same_subscribers (run_calls sqlite_step steps db).2
                     (run_calls (postgres_step url) steps st).2.
Proof.
  intros Hurl Hsteps. revert db st.
  induction Hsteps as [|s steps Hs _ IH]; intros db st Hsame; [by split|].
  simpl.
  destruct (same_subscribers_step url s db st Hurl Hs Hsame) as [Hans Hnext].
  destruct (sqlite_step s db) as [r1 db1], (postgres_step url s st) as [r2 st1].
  specialize (IH db1 st1 Hnext).
  destruct (run_calls sqlite_step steps db1) as [rs1 db2],
           (run_calls (postgres_step url) steps st1) as [rs2 st2].
  simpl in *. destruct IH. split; [by constructor|done].
Qed.

Lemma backends_agree_up_to_timestamp_witness :
  let url := Some "postgresql://bot@db/subscribers" in
  let steps := [Step alice 100 None; Step (RemoveSubscriber 42) 150 None;
                Step GetSubscriberCount 160 None; Step alice 200 None;
                Step GetActiveSubscribers 210 None] in
  let db := Some ∅ in
  let st := subscriber_db.State true (Some ∅) in
  Forall2 same_answer (run_calls sqlite_step steps db).1
                      (run_calls (postgres_step url) steps st).1
  ∧ same_subscribers (run_calls sqlite_step steps db).2
                     (run_calls (postgres_step url) steps st).2.
Proof.
  intros url steps db st.
  apply (backends_agree_up_to_timestamp url steps db st).
  - reflexivity.
  - repeat constructor.
  - split; [reflexivity|]. exists ∅, ∅. repeat split.
Defined.

(** C4 as stated fails: subscribing the same identifier twice leaves the
    second subscription time in the file backend and the first one in the
    networked backend, and the answers to the two writes differ. *)
Lemma backends_differ_on_resubscribe :
  let url := Some "postgresql://bot@db/subscribers" in
  let lite := run_calls sqlite_step resubscribe None in
  let pg := run_calls (postgres_step url) resubscribe fresh_postgres in
  lite.1 = [Ret VNone; Ret (VBool true); Ret (VBool true)]
  ∧ pg.1 = [Ret VNone; Ret VNone; Ret VNone]
  ∧ (∃ t, lite.2 = Some t
          ∧ t !! 42 = Some (Row (Some "alice") (Some "Alice") 200 true))
  ∧ (∃ t, subscriber_db.server pg.2 = Some t
          ∧ t !! 42 = Some (Row (Some "alice") (Some "Alice") 100 true))
  ∧ lite.1 ≠ pg.1 ∧ lite.2 ≠ subscriber_db.server pg.2.
Proof.
  cbv zeta. split_and!.
  - reflexivity.
  - reflexivity.
  - eexists; split; [reflexivity|]. vm_compute. reflexivity.
  - eexists; split; [reflexivity|]. vm_compute. reflexivity.
  - discriminate.
  - intros Heq. apply (f_equal (λ d, d ≫= (.!! 42))) in Heq.
    vm_compute in Heq. discriminate Heq.
Qed.


(** ** The intervals (C9) *)

(** C9, at the input on which the code departs from it: with nothing
    configured, [settings.SUMMARY_INTERVAL] is 300 and
    [settings.TESTING_INTERVAL] is 5, while [main] runs the monitor with 180
    minutes, or 5 in test mode, which are also the defaults of [run] and of
    [monitor_and_summarize]. *)
Theorem interval_defaults (int_of_str : string → outcome Z) :
  settings.SUMMARY_INTERVAL int_of_str ∅ = Ret 300
  ∧ settings.TESTING_INTERVAL int_of_str ∅ = Ret 5
  ∧ main_interval false = 180
  ∧ main_interval true = 5
  ∧ default_interval_minutes = 180.
Proof. split_and!; reflexivity. Qed.

(** * Properties of the monitor *)

(** ** Strings *)

Lemma string_app_cons (c : ascii) (s1 s2 : string) :
  String c s1 ++ s2 = String c (s1 ++ s2).
Proof. reflexivity. Qed.

Lemma string_app_nil_r (s : string) : s ++ EmptyString = s.
Proof.
  induction s as [|c s IH]; [done|]. by rewrite string_app_cons, IH.
Qed.

Lemma length_string_app (s1 s2 : string) :
  String.length (s1 ++ s2) = (String.length s1 + String.length s2)%nat.
Proof.
  induction s1 as [|c s1 IH]; [done|].
  rewrite string_app_cons. simpl. by rewrite IH.
Qed.

Lemma length_substring (n : nat) (s : string) :
  String.length (String.substring 0 n s) = (n `min` String.length s)%nat.
Proof.
  revert s. induction n as [|n IH]; intros [|c s]; simpl; [done..|].
  by rewrite IH.
Qed.

Lemma prefix_substring (n : Z) (s : string) :
  String.prefix (str_take n s) s = true.
Proof.
  unfold str_take. generalize (Z.to_nat n) as k. intros k. revert s.
  induction k as [|k IH]; intros [|c s]; simpl; try done.
  destruct (ascii_dec c c); [apply IH|done].
Qed.

(** ** What a computation leaves alone *)

#[global] Instance grows_preorder : PreOrder grows.
Proof.
  split.
  - intros w. exists []. by rewrite app_nil_r.
  - intros w1 w2 w3 [e1 H1] [e2 H2]. exists (e1 ++ e2)%list.
    by rewrite H2, H1, app_assoc.
Qed.

Lemma grows_same_trace w w' : trace w' = trace w → grows w w'.
Proof. intros H. exists []. by rewrite app_nil_r. Qed.

#[global] Instance cursor_kept_allows : Allows cursor_kept.
Proof.
  split.
  - split.
    + intros w. split; [done|reflexivity].
    + intros w1 w2 w3 [H1 G1] [H2 G2]. split; [congruence|by etrans].
  - intros ev w. split; [done|]. by exists [ev].
  - intros w. split; [done|by apply grows_same_trace].
  - intros w. split; [done|by apply grows_same_trace].
  - intros w. split; [done|by apply grows_same_trace].
  - intros db w. split; [done|by apply grows_same_trace].
Qed.

#[global] Instance monitor_kept_allows : Allows monitor_kept.
Proof.
  split.
  - split.
    + intros w. split; [done|reflexivity].
    + intros w1 w2 w3 [H1 G1] [H2 G2]. split; [congruence|by etrans].
  - intros ev w. split; [done|]. apply allows_event.
  - intros w. split; [done|]. apply allows_user_client.
  - intros w. split; [done|]. apply allows_bot_client.
  - intros w. split; [done|]. apply allows_db_ready.
  - intros db w. split; [done|]. apply allows_subscribers.
Qed.

#[global] Instance reader_kept_allows : Allows reader_kept.
Proof.
  split.
  - split.
    + intros w Hw. exact Hw.
    + intros w1 w2 w3 H1 H2 Hw. apply H2, H1, Hw.
  - intros ev w Hw. exact Hw.
  - intros w Hw. reflexivity.
  - intros w Hw. exact Hw.
  - intros w Hw. exact Hw.
  - intros db w Hw. exact Hw.
Qed.

Section respects.
Context (R : relation world) `{!Allows R}.

Lemma respects_ret {A} (a : A) : respects R (mret a).
Proof. intros w. reflexivity. Qed.

Lemma respects_raise {A} e : respects R (raise (A:=A) e).
Proof. intros w. reflexivity. Qed.

Lemma respects_get {A} (f : world → A) : respects R (get f).
Proof. intros w. reflexivity. Qed.

Lemma respects_bind {A B} (m : M A) (f : A → M B) :
  respects R m → (∀ a, respects R (f a)) → respects R (m ≫= f).
Proof.
  intros Hm Hf w. unfold mbind, M_bind. specialize (Hm w).
  destruct (m w) as [[a|e] w']; simpl in *; [|done].
  etrans; [exact Hm|apply Hf].
Qed.

Lemma respects_try {A} (m : M A) h :
  respects R m → (∀ e, respects R (h e)) → respects R (try_except m h).
Proof.
  intros Hm Hh w. unfold try_except. specialize (Hm w).
  destruct (m w) as [[a|e] w']; simpl in *; [done|].
  etrans; [exact Hm|apply Hh].
Qed.

Lemma respects_try_if {A} c (m : M A) h :
  respects R m → (∀ e, respects R (h e)) → respects R (try_except_if c m h).
Proof.
  intros Hm Hh w. unfold try_except_if. specialize (Hm w).
  destruct (m w) as [[a|e] w']; simpl in *; [done|].
  destruct (c e); [|done]. etrans; [exact Hm|apply Hh].
Qed.

Lemma respects_for_each {A} (l : list A) body :
  (∀ x, respects R (body x)) → respects R (for_each l body).
Proof.
  intros Hb. induction l as [|x l IH]; simpl.
  - apply respects_ret.
  - apply respects_bind; [apply Hb|by intros _].
Qed.

Lemma respects_ask {A} (answer : list event → outcome A) ev :
  respects R (ask answer ev).
Proof. intros w. apply allows_event. Qed.

Lemma respects_sleep n : respects R (sleep n).
Proof. apply respects_ask. Qed.

Lemma respects_modify f : (∀ w, R w (f w)) → respects R (modify f).
Proof. intros Hf w. apply Hf. Qed.

Lemma respects_db_connect E : respects R (db_connect E).
Proof.
  intros w. unfold db_connect.
  destruct (subscriber_db_sqlite.connect _ _) as [r db]. simpl.
  etrans; [apply allows_subscribers|apply allows_event].
Qed.

Lemma respects_db_get_active E : respects R (db_get_active_subscribers E).
Proof.
  intros w. unfold db_get_active_subscribers.
  destruct (subscriber_db_sqlite.get_active_subscribers _ _) as [r db]. simpl.
  etrans; [apply allows_subscribers|apply allows_event].
Qed.

Lemma respects_db_remove E user_id : respects R (db_remove_subscriber E user_id).
Proof.
  intros w. unfold db_remove_subscriber.
  destruct (subscriber_db_sqlite.remove_subscriber _ _ _) as [r db]. simpl.
  etrans; [apply allows_subscribers|apply allows_event].
Qed.

Lemma respects_format E summary : respects R (format_message E summary).
Proof. intros w. reflexivity. Qed.

Lemma respects_decode E result : respects R (decode E result).
Proof. intros w. reflexivity. Qed.
End respects.

(** One step of a proof that a computation respects a relation. *)
Ltac respects_step :=
  lazymatch goal with
  | |- respects ?R (mret _) => apply (respects_ret R)
  | |- respects ?R (raise _) => apply (respects_raise R)
  | |- respects ?R (get _) => apply (respects_get R)
  | |- respects ?R (sleep _) => apply (respects_sleep R)
  | |- respects ?R (ask _ _) => apply (respects_ask R)
  | |- respects ?R (db_connect _) => apply (respects_db_connect R)
  | |- respects ?R (db_get_active_subscribers _) =>
      apply (respects_db_get_active R)
  | |- respects ?R (db_remove_subscriber _ _) => apply (respects_db_remove R)
  | |- respects ?R (format_message _ _) => apply (respects_format R)
  | |- respects ?R (decode _ _) => apply (respects_decode R)
  | |- respects ?R (modify (with_user_client true)) =>
      apply (respects_modify R); intros ?; apply allows_user_client
  | |- respects ?R (modify (with_bot_client true)) =>
      apply (respects_modify R); intros ?; apply allows_bot_client
  | |- respects ?R (modify (with_db_ready true)) =>
      apply (respects_modify R); intros ?; apply allows_db_ready
  | |- respects ?R (_ ≫= _) => apply (respects_bind R); [|intros ?]
  | |- respects ?R (try_except_if _ _ _) => apply (respects_try_if R); [|intros ?]
  | |- respects ?R (try_except _ _) => apply (respects_try R); [|intros ?]
  | |- respects ?R (for_each _ _) => apply (respects_for_each R); intros ?
  | |- respects _ (if ?b then _ else _) => destruct b
  | |- respects _ (match ?x with _ => _ end) => destruct x
  end.

Ltac respects_all := repeat respects_step.

(** Case analysis on the next answer of the outside. *)
Ltac case_outcome :=
  match goal with
  | |- context [match ?o with Ret _ => _ | Raise _ => _ end] =>
      destruct o as [[]|?] eqn:?
  | |- context [match ?o with Ret _ => _ | Raise _ => _ end] =>
      destruct o as [?|?] eqn:?
  end.

Ltac case_flag :=
  match goal with
  | |- context [if ?b then _ else _] => destruct b eqn:?
  end.

Ltac case_fault :=
  match goal with
  | |- context [match ?o with Some _ => _ | None => _ end] =>
      destruct o as [?|] eqn:?
  end.

#[local] Arguments summarize : simpl never.
#[local] Arguments send_summary_to_subscribers : simpl never.
#[local] Arguments fetch_recent_messages : simpl never.
#[local] Arguments connect : simpl never.
#[local] Arguments process_batch : simpl never.
#[local] Arguments cycle_handler : simpl never.
#[local] Arguments combined_text : simpl never.
#[local] Arguments chat_request_of : simpl never.
#[local] Arguments send_to : simpl never.

Section monitor_facts.
Variable E : env.
Variable prompt : string.

Section frames.
Context (R : relation world) `{!Allows R}.

Lemma respects_connect : respects R (connect E).
Proof. unfold connect. respects_all. Qed.

Lemma respects_fetch hours : respects R (fetch_recent_messages E hours).
Proof.
  unfold fetch_recent_messages, fetch_body, resolve_channel.
  respects_all; apply respects_connect.
Qed.

Lemma respects_summarize messages : respects R (summarize E prompt messages).
Proof. unfold summarize. respects_all. Qed.

Lemma respects_send summary : respects R (send_summary_to_subscribers E summary).
Proof. unfold send_summary_to_subscribers, send_to. respects_all. Qed.

Lemma respects_handler e : respects R (cycle_handler E e).
Proof. unfold cycle_handler. respects_all; apply respects_connect. Qed.
End frames.

Lemma bind_eq {A B} (m : M A) (f : A → M B) w :
  (m ≫= f) w = match m w with
               | (Ret a, w') => f a w'
               | (Raise e, w') => (Raise e, w')
               end.
Proof. reflexivity. Qed.

Lemma respects_stamp : respects cursor_kept (stamp_last_processed_time E).
Proof. intros w. split; [done|by apply grows_same_trace]. Qed.

(** ** The turn of the loop *)

Lemma cycle_body_keeps_reader i : respects reader_kept (cycle_body E prompt i).
Proof.
  unfold cycle_body, process_batch.
  repeat first
    [ apply respects_fetch; apply _
    | apply respects_summarize; apply _
    | apply respects_send; apply _
    | respects_step
    | (intros ? ?; done) ].
Qed.

Lemma cycle_handler_returns e w : ∃ w', cycle_handler E e w = (Ret tt, w').
Proof.
  unfold cycle_handler. rewrite bind_eq.
  destruct (is_connection_error e); [|eexists; reflexivity].
  unfold try_except.
  destruct ((get user_client ≫= _) w) as [[[]|e'] w1]; eexists; reflexivity.
Qed.

Lemma cycle_returns i w : ∃ w', cycle E prompt i w = (Ret tt, w').
Proof.
  unfold cycle, try_except.
  destruct (cycle_body E prompt i w) as [[[]|e] w1]; [by eexists|].
  apply cycle_handler_returns.
Qed.

Lemma summarize_batch m ms w :
  ∃ v, summarize E prompt (m :: ms) w
       = (Ret v, record (EvChatCompletion
                           (chat_request_of prompt (combined_text (m :: ms)))) w).
Proof.
  unfold summarize, try_except. rewrite bind_eq. unfold ask.
  destruct (chat_create E _ _) as [[result|]|e]; simpl; [|by eexists..].
  unfold try_except_if, decode.
  destruct (json_loads E result) as [parsed|e]; [by eexists|].
  destruct (is_JSONDecodeError e); by eexists.
Qed.

Lemma process_batch_empty w : process_batch E prompt [] w = (Ret tt, w).
Proof. reflexivity. Qed.

Lemma process_batch_same m ms w :
  last_message_id w = Some (msg_id m) →
  process_batch E prompt (m :: ms) w = (Ret tt, w).
Proof.
  intros Hlast. unfold process_batch. rewrite bind_eq. simpl. rewrite Hlast.
  rewrite (bool_decide_eq_false_2 (Some (msg_id m) = None)) by done.
  by rewrite (bool_decide_eq_true_2 (Some (msg_id m) = Some (msg_id m))).
Qed.

Lemma process_batch_new m ms w :
  last_message_id w ≠ Some (msg_id m) →
  cursor_kept
    (record (EvChatCompletion (chat_request_of prompt (combined_text (m :: ms))))
            (with_last_message_id (Some (msg_id m)) w))
    (process_batch E prompt (m :: ms) w).2.
Proof.
  intros Hlast. unfold process_batch. rewrite bind_eq. simpl.
  assert (bool_decide (last_message_id w = None)
          || negb (bool_decide (Some (msg_id m) = last_message_id w)) = true)
    as ->.
  { destruct (last_message_id w) as [l|]; [|done].
    rewrite (bool_decide_eq_false_2 (Some (msg_id m) = Some l)); [done|congruence]. }
  rewrite bind_eq. simpl. rewrite bind_eq.
  destruct (summarize_batch m ms (with_last_message_id (Some (msg_id m)) w))
    as [v ->].
  destruct (truthy v); [|reflexivity].
  assert (respects cursor_kept
            (send_summary_to_subscribers E v
             ≫= λ _, stamp_last_processed_time E)) as Hrest.
  { respects_step; [apply respects_send; apply _|apply respects_stamp]. }
  apply Hrest.
Qed.

Lemma cycle_skips i w w1 m ms :
  fetch_recent_messages E (i # 60) w = (Ret (m :: ms), w1) →
  last_message_id w = Some (msg_id m) →
  cycle E prompt i w = (Ret tt, record (EvSleep (i * 60)) w1)
  ∧ last_message_id w1 = last_message_id w.
Proof.
  intros Hfetch Hlast.
  pose proof (respects_fetch monitor_kept (i # 60) w) as (_ & Hid & _).
  rewrite Hfetch in Hid. simpl in Hid. split; [|done].
  unfold cycle, try_except, cycle_body. rewrite bind_eq, Hfetch, bind_eq.
  rewrite process_batch_same by congruence. reflexivity.
Qed.

Lemma cycle_advances i w w1 m ms :
  fetch_recent_messages E (i # 60) w = (Ret (m :: ms), w1) →
  last_message_id w ≠ Some (msg_id m) →
  ∃ w2, cycle E prompt i w = (Ret tt, w2)
        ∧ cursor_kept
            (record (EvChatCompletion
                       (chat_request_of prompt (combined_text (m :: ms))))
                    (with_last_message_id (Some (msg_id m)) w1)) w2.
Proof.
  intros Hfetch Hlast.
  pose proof (respects_fetch monitor_kept (i # 60) w) as (_ & Hid & _).
  rewrite Hfetch in Hid. simpl in Hid. rewrite <- Hid in Hlast.
  pose proof (process_batch_new m ms w1 Hlast) as Hkept.
  unfold cycle, try_except, cycle_body. rewrite bind_eq, Hfetch, bind_eq.
  destruct (process_batch E prompt (m :: ms) w1) as [[[]|e] wp]; simpl in *.
  - eexists; split; [reflexivity|].
    etrans; [exact Hkept|apply allows_event].
  - destruct (cycle_handler_returns e wp) as [w2 Hw2]. exists w2.
    split; [done|]. etrans; [exact Hkept|].
    pose proof (respects_handler cursor_kept e wp) as Hh.
    by rewrite Hw2 in Hh.
Qed.

(** C1: in a turn whose fetch returns a batch, if the newest identifier
    is the cursor then the world after the turn is the world after the
    fetch plus the sleep: nothing is sent to the summarizer, the store is
    not read, nothing is distributed, and the cursor stays.  Otherwise,
    whatever the summarizer, the store and the sends do, the turn ends
    normally with the cursor at the newest identifier and with the request
    to the summarizer as the first event after the fetch; and a next turn
    that fetches a batch with the same newest identifier only sleeps. *)
Theorem cursor_advances_before_summarizing
    (i : Z) (w w1 : world) (m : message) (ms : list message) :
  fetch_recent_messages E (i # 60) w = (Ret (m :: ms), w1) →
  (last_message_id w = Some (msg_id m) →
     cycle E prompt i w = (Ret tt, record (EvSleep (i * 60)) w1)
     ∧ last_message_id w1 = last_message_id w)
  ∧ (last_message_id w ≠ Some (msg_id m) →
     ∃ w2 evs,
       cycle E prompt i w = (Ret tt, w2)
       ∧ last_message_id w2 = Some (msg_id m)
       ∧ trace w2
         = (trace w1
            ++ EvChatCompletion (chat_request_of prompt (combined_text (m :: ms)))
            :: evs)%list
       ∧ ∀ w3 m' ms',
           fetch_recent_messages E (i # 60) w2 = (Ret (m' :: ms'), w3) →
           msg_id m' = msg_id m →
           cycle E prompt i w2 = (Ret tt, record (EvSleep (i * 60)) w3)).
Proof.
  intros Hfetch. split; intros Hlast.
  - by apply (cycle_skips i w w1 m ms).
  - destruct (cycle_advances i w w1 m ms Hfetch Hlast) as (w2 & Hw2 & Hid & evs & Hevs).
    exists w2, evs. simpl in Hid, Hevs. split_and!; [done|done| |].
    + by rewrite Hevs, <- app_assoc.
    + intros w3 m' ms' Hfetch' Hsame.
      apply (cycle_skips i w2 w3 m' ms' Hfetch'). congruence.
Qed.

(** C10: where the fetch of a turn returns the empty batch, the turn
    only sleeps and leaves the cursor and the time of the last distribution
    as they were; [summarize] on the empty list returns [None] and
    [send_summary_to_subscribers] on [None] returns, both without an event
    and without a change. *)
Theorem empty_batch_is_a_no_op (i : Z) (w w1 : world) :
  fetch_recent_messages E (i # 60) w = (Ret [], w1) →
  summarize E prompt [] w1 = (Ret PNone, w1)
  ∧ send_summary_to_subscribers E PNone w1 = (Ret tt, w1)
  ∧ cycle E prompt i w = (Ret tt, record (EvSleep (i * 60)) w1)
  ∧ last_message_id w1 = last_message_id w
  ∧ last_processed_time w1 = last_processed_time w.
Proof.
  intros Hfetch.
  pose proof (respects_fetch monitor_kept (i # 60) w) as (Htime & Hid & _).
  rewrite Hfetch in Hid, Htime. simpl in Hid, Htime.
  split_and!; [done|done| |done|done].
  unfold cycle, try_except, cycle_body. by rewrite bind_eq, Hfetch.
Qed.

(** ** The text sent to the summarizer *)

(** C7: for a batch that is not empty, [summarize] sends one request,
    whose user content is the fixed heading and then the text of the
    batch: the bodies in fetched order with the separator of line 168
    between them (two line feeds, three hyphens, two line feeds), as it is
    where it has at most 15000 characters, and otherwise its first 15000
    characters followed by the truncation marker. *)
Theorem dispatched_text_is_joined_and_truncated
    (m : message) (ms : list message) (w : world) :
  let line_168 :=
    String LF (String LF (String "-" (String "-" (String "-"
      (String LF (String LF EmptyString)))))) in
  let joined := join line_168 (msg_text <$> (m :: ms)) in
  let text := combined_text (m :: ms) in
  (∃ v, summarize E prompt (m :: ms) w
        = (Ret v, record (EvChatCompletion (chat_request_of prompt text)) w))
  ∧ user_content (chat_request_of prompt text)
    = "News updates to analyze:" ++ String LF text
  ∧ separator = line_168
  ∧ joined = msg_text m ++ match ms with
                           | [] => EmptyString
                           | _ :: _ => line_168 ++ join line_168 (msg_text <$> ms)
                           end
  ∧ ((len joined ≤ 15000)%Z → text = joined)
  ∧ ((15000 < len joined)%Z →
     text = str_take 15000 joined ++ "...(truncated)"
     ∧ len (str_take 15000 joined) = 15000
     ∧ String.prefix (str_take 15000 joined) joined = true
     ∧ len text = 15014).
Proof.
  intros line_168 joined text.
  assert (separator = line_168) as Hsep by reflexivity.
  split_and!.
  - apply summarize_batch.
  - reflexivity.
  - exact Hsep.
  - unfold joined. destruct ms; [|reflexivity].
    simpl. by rewrite string_app_nil_r.
  - intros Hle. unfold text, combined_text. rewrite Hsep. fold joined.
    by rewrite (proj2 (Z.ltb_ge _ _) Hle).
  - intros Hlt. unfold text, combined_text. rewrite Hsep. fold joined.
    rewrite (proj2 (Z.ltb_lt _ _) Hlt).
    assert (len (str_take 15000 joined) = 15000) as Hlen.
    { unfold len, str_take in *. rewrite length_substring. lia. }
    split_and!; [done|done|apply prefix_substring|].
    unfold len in *. rewrite length_string_app, Nat2Z.inj_add, Hlen. reflexivity.
Qed.

(** ** The answer of the summarizer *)

(** C2, as the code has it: where the collaborator answers a text on
    which [json.loads] raises [json.JSONDecodeError], [summarize] returns
    the fallback artifact of lines 252-259, which has every field of the
    schema, no impacted entity, no sector, the sentiment neutral and a
    summary that embeds the first 500 characters of the answer.  Where
    [json.loads] raises another exception, [summarize] returns the
    fallback artifact of lines 260-266, which has the same fields, no
    impacted entity, no sector, the sentiment neutral and a fixed summary
    that embeds nothing of the answer.  Where [json.loads] decodes the
    answer, [summarize] returns what was decoded, whatever its shape, and
    if that counts as true the turn hands it to
    [send_summary_to_subscribers], which reads the store with it. *)
Theorem unparsable_output_gives_fallback
    (m : message) (ms : list message) (w : world) (result : string) :
  let request := chat_request_of prompt (combined_text (m :: ms)) in
  chat_create E (trace w) request = Ret (Some result) →
  (∀ e, json_loads E result = Raise e → is_JSONDecodeError e = true →
     summarize E prompt (m :: ms) w
     = (Ret (parse_fallback result), record (EvChatCompletion request) w)
     ∧ artifact_complete (parse_fallback result) = true
     ∧ dict_get "potentially_impacted_stocks" (parse_fallback result)
       = Some (PList [])
     ∧ dict_get "market_sectors" (parse_fallback result) = Some (PList [])
     ∧ dict_get "sentiment" (parse_fallback result) = Some (PStr "neutral")
     ∧ ∃ text,
         dict_get "summary" (parse_fallback result) = Some (PStr text)
         ∧ text ≠ EmptyString
         ∧ text = "Summary could not be generated in the correct format. Here's the raw output: "
                  ++ str_take 500 result ++ "..."
         ∧ String.prefix (str_take 500 result) result = true)
  ∧ (∀ e, json_loads E result = Raise e → is_JSONDecodeError e = false →
     summarize E prompt (m :: ms) w
     = (Ret error_fallback, record (EvChatCompletion request) w)
     ∧ artifact_complete error_fallback = true
     ∧ dict_get "potentially_impacted_stocks" error_fallback = Some (PList [])
     ∧ dict_get "market_sectors" error_fallback = Some (PList [])
     ∧ dict_get "sentiment" error_fallback = Some (PStr "neutral")
     ∧ dict_get "summary" error_fallback = Some (PStr "Error generating summary"))
  ∧ (∀ parsed, json_loads E result = Ret parsed →
     summarize E prompt (m :: ms) w
     = (Ret parsed, record (EvChatCompletion request) w)
     ∧ (truthy parsed = true → last_message_id w ≠ Some (msg_id m) →
        let handed := record (EvChatCompletion request)
                             (with_last_message_id (Some (msg_id m)) w) in
        process_batch E prompt (m :: ms) w
        = (send_summary_to_subscribers E parsed
           ≫= λ _, stamp_last_processed_time E) handed
        ∧ ∃ evs, trace (process_batch E prompt (m :: ms) w).2
                 = (trace w ++ EvChatCompletion request :: EvDbGetActive :: evs)%list)).
Proof.
  intros request Hanswer.
  assert (Hrun : ∀ w0, trace w0 = trace w →
            summarize E prompt (m :: ms) w0
            = (match json_loads E result with
               | Ret parsed => Ret parsed
               | Raise e => if is_JSONDecodeError e
                            then Ret (parse_fallback result)
                            else Ret error_fallback
               end, record (EvChatCompletion request) w0)).
  { intros w0 Htrace. unfold summarize, try_except. rewrite bind_eq. unfold ask.
    fold request. rewrite Htrace, Hanswer. unfold try_except_if, decode.
    destruct (json_loads E result) as [parsed|e]; [reflexivity|].
    by destruct (is_JSONDecodeError e). }
  split_and!.
  - intros e Hloads Hclass. split_and!; try reflexivity.
    + by rewrite (Hrun w eq_refl), Hloads, Hclass.
    + eexists. split_and!; [reflexivity|done|reflexivity|apply prefix_substring].
  - intros e Hloads Hclass. split_and!; try reflexivity.
    by rewrite (Hrun w eq_refl), Hloads, Hclass.
  - intros parsed Hloads. split.
    { by rewrite (Hrun w eq_refl), Hloads. }
    intros Htruthy Hlast handed.
    assert (process_batch E prompt (m :: ms) w
            = (send_summary_to_subscribers E parsed
               ≫= λ _, stamp_last_processed_time E) handed) as Hbatch.
    { unfold process_batch. rewrite bind_eq. simpl.
      assert (bool_decide (last_message_id w = None)
              || negb (bool_decide (Some (msg_id m) = last_message_id w)) = true)
        as ->.
      { destruct (last_message_id w) as [l|]; [|done].
        rewrite (bool_decide_eq_false_2 (Some (msg_id m) = Some l));
          [done|congruence]. }
      rewrite bind_eq. simpl. rewrite bind_eq.
      rewrite (Hrun (with_last_message_id (Some (msg_id m)) w) eq_refl), Hloads.
      by rewrite Htruthy. }
    split; [exact Hbatch|]. rewrite Hbatch.
    unfold send_summary_to_subscribers. rewrite Htruthy. simpl.
    rewrite !bind_eq. unfold db_get_active_subscribers at 1.
    destruct (subscriber_db_sqlite.get_active_subscribers _ _) as [r db] eqn:Hread.
    assert (∃ ids, r = Ret ids) as [ids ->].
    { revert Hread. unfold subscriber_db_sqlite.get_active_subscribers.
      destruct (subscriber_db_sqlite.fetch_active _ _);
        intros [= <- _]; by eexists. }
    set (w1 := record EvDbGetActive (with_subscribers db handed)).
    assert (respects cursor_kept
              (match ids with
               | [] => mret tt
               | _ :: _ => format_message E parsed
                           ≫= λ body, for_each ids (send_to E body)
               end ≫= λ _, stamp_last_processed_time E)) as Hrest.
    { respects_step; [|apply respects_stamp].
      destruct ids; unfold send_to; respects_all. }
    destruct (Hrest w1) as (_ & evs & Hevs).
    exists evs. rewrite bind_eq in Hevs. rewrite Hevs.
    unfold w1, handed. simpl. by rewrite <- !app_assoc.
Qed.

(** ** Errors in a turn *)

Lemma connect_trace w :
  ∃ evs, trace (connect E w).2 = (trace w ++ evs)%list
         ∧ evs `prefix_of` connect_events
         ∧ ((connect E w).1 = Ret tt →
            EvUserConnect ∈ evs ∧ EvBotStart ∈ evs).
Proof.
  unfold connect, connect_events, ask, modify, get, raise, db_connect,
    subscriber_db_sqlite.connect, subscriber_db_sqlite.create_table,
    mbind, M_bind, mret, M_ret.
  simpl.
  repeat (first [case_outcome | case_flag | case_fault]; simpl);
    (eexists; split_and!;
     [rewrite <- ?app_assoc; reflexivity
     |eexists; reflexivity
     |first [discriminate | intros _; set_solver]]).
Qed.

Lemma monitor_turns_return i turns w :
  ∃ w', monitor_turns E prompt i turns w = (Ret tt, w').
Proof.
  revert w. induction turns as [|n IH]; intros w; simpl; [by eexists|].
  rewrite bind_eq. destruct (cycle_returns i w) as [w1 ->]. apply IH.
Qed.

(** C8: where the body of a turn raises, the turn still ends normally
    and the loop goes on with the next turn.  If the text of the error
    holds "disconnected" or "connection" (in any case of letters), the
    reader is disconnected, and if that did not raise the monitor sleeps 5
    seconds and runs [connect], which (re)connects the reader and the
    responder in at most six calls; whatever that attempt did, and in the
    other case directly, the monitor sleeps 60 seconds.  A reader that
    exists when the turn starts, as it does once [run] has connected, still
    exists when the error is caught, so that it is disconnected.  No number
    of turns ends with an exception. *)
Theorem caught_error_never_stops_the_loop
    (i : Z) (w w1 : world) (e : exn) :
  cycle_body E prompt i w = (Raise e, w1) →
  let wd := if user_client w1 then record EvUserDisconnect w1 else w1 in
  let disconnected :=
    if user_client w1 then user_disconnect E (trace w1) else Ret tt in
  let w2 :=
    if is_connection_error e then
      match disconnected with
      | Ret _ => (connect E (record (EvSleep 5) wd)).2
      | Raise _ => wd
      end
    else w1 in
  cycle E prompt i w = (Ret tt, record (EvSleep 60) w2)
  ∧ (user_client w = true → wd = record EvUserDisconnect w1)
  ∧ (∀ turns, monitor_turns E prompt i (S turns) w
              = monitor_turns E prompt i turns (record (EvSleep 60) w2))
  ∧ (∀ turns w0, ∃ w', monitor_and_summarize E prompt i turns w0 = (Ret tt, w'))
  ∧ (∀ w0, ∃ evs, trace (connect E w0).2 = (trace w0 ++ evs)%list
                  ∧ evs `prefix_of` connect_events
                  ∧ ((connect E w0).1 = Ret tt →
                     EvUserConnect ∈ evs ∧ EvBotStart ∈ evs)).
Proof.
  intros Hbody wd disconnected w2.
  assert (cycle E prompt i w = (Ret tt, record (EvSleep 60) w2)) as Hcycle.
  { unfold cycle, try_except. rewrite Hbody.
    unfold cycle_handler, try_except, sleep, ask, get, mbind, M_bind, mret, M_ret.
    subst w2 disconnected wd. simpl.
    destruct (is_connection_error e); [|reflexivity].
    destruct (user_client w1); simpl.
    - destruct (user_disconnect E (trace w1)) as [[]|e1]; simpl; [|reflexivity].
      by destruct (connect E _) as [[[]|e2] w3].
    - by destruct (connect E _) as [[[]|e2] w3]. }
  split_and!.
  - exact Hcycle.
  - intros Hreader. pose proof (cycle_body_keeps_reader i w Hreader) as Hkept.
    rewrite Hbody in Hkept. simpl in Hkept. subst wd. by rewrite Hkept.
  - intros turns. simpl. by rewrite bind_eq, Hcycle.
  - intros turns w0. unfold monitor_and_summarize. rewrite bind_eq. simpl.
    apply monitor_turns_return.
  - apply connect_trace.
Qed.

(** ** Distribution *)

Lemma send_to_reached body j w :
  send_message E (trace w) j body = Ret tt →
  send_to E body j w
  = (Ret tt, record (EvSleep 1) (record (EvSendMessage j body) w)).
Proof.
  intros Hsend.
  unfold send_to, try_except, sleep, ask, mbind, M_bind. by rewrite Hsend.
Qed.

Lemma send_to_unreached body k w t :
  is_raise (send_message E (trace w) k body) = true →
  subscribers w = Some t →
  ∃ t', send_to E body k w
        = (Ret tt, record (EvDbRemove k)
                     (with_subscribers (Some t') (record (EvSendMessage k body) w)))
        ∧ (t' = t ∨ t' = alter deactivate k t)
        ∧ (sqlite_fault E (trace w ++ [EvSendMessage k body]) = None →
           t' = alter deactivate k t).
Proof.
  intros Hsend Ht.
  unfold send_to, try_except, sleep, ask, mbind, M_bind.
  destruct (send_message E (trace w) k body) as [[]|e]; [done|].
  unfold db_remove_subscriber, subscriber_db_sqlite.remove_subscriber,
    subscriber_db_sqlite.update_inactive.
  simpl. rewrite Ht.
  destruct (sqlite_fault E _) as [e'|]; simpl.
  - exists t. split_and!; [done|by left|done].
  - exists (alter deactivate k t). split_and!; [done|by right|done].
Qed.

Lemma send_loop body k ids :
  (∀ h text, is_raise (send_message E h k text) = true) →
  (∀ h j text, j ≠ k → send_message E h j text = Ret tt) →
  ∀ w (t : table), subscribers w = Some t →
  ∃ w' evs (t' : table),
    for_each ids (send_to E body) w = (Ret tt, w')
    ∧ trace w' = (trace w ++ evs)%list
    ∧ sends evs = (λ j, (j, body)) <$> ids
    ∧ removals evs = filter (λ j, j = k) ids
    ∧ subscribers w' = Some t'
    ∧ (∀ j, j ≠ k → t' !! j = t !! j)
    ∧ (t' !! k = t !! k ∨ t' !! k = deactivate <$> t !! k)
    ∧ ((∀ h, sqlite_fault E h = None) → k ∈ ids →
       t' !! k = deactivate <$> t !! k).
Proof.
  intros Hk Hothers.
  assert (Hidem : ∀ o : option row, deactivate <$> (deactivate <$> o) = deactivate <$> o)
    by (by intros [[]|]).
  induction ids as [|j ids IH]; intros w t Ht.
  - exists w, [], t. split_and!; try done.
    + simpl. by rewrite app_nil_r.
    + by left.
    + intros _ Hin. by apply elem_of_nil in Hin.
  - cbn [for_each]. rewrite bind_eq. destruct (decide (j = k)) as [->|Hj].
    + destruct (send_to_unreached body k w t (Hk _ _) Ht) as (t1 & -> & Ht1 & Hok).
      set (w1 := record (EvDbRemove k) _).
      destruct (IH w1 t1 eq_refl) as (w' & evs & t' & -> & Htr & Hs & Hr & Hsub & Hne & Hkk & Hall).
      exists w', (EvSendMessage k body :: EvDbRemove k :: evs), t'.
      split_and!; [done| | | |done| | |].
      * rewrite Htr. subst w1. simpl. by rewrite <- !app_assoc.
      * rewrite fmap_cons, <- Hs. reflexivity.
      * rewrite filter_cons, decide_True, <- Hr by done. reflexivity.
      * intros i Hi. rewrite (Hne i Hi).
        destruct Ht1 as [->| ->]; [done|]. by rewrite lookup_alter_ne.
      * destruct Ht1 as [->| ->]; [done|].
        rewrite lookup_alter_eq in Hkk. rewrite Hidem in Hkk.
        right. by destruct Hkk.
      * intros Hfault _. rewrite (Hok (Hfault _)) in Hkk.
        rewrite lookup_alter_eq, Hidem in Hkk. by destruct Hkk.
    + rewrite (send_to_reached body j w (Hothers _ _ _ Hj)).
      set (w1 := record (EvSleep 1) _).
      destruct (IH w1 t Ht) as (w' & evs & t' & -> & Htr & Hs & Hr & Hsub & Hne & Hkk & Hall).
      exists w', (EvSendMessage j body :: EvSleep 1 :: evs), t'.
      split_and!; [done| | | |done|done|done|].
      * rewrite Htr. subst w1. simpl. by rewrite <- !app_assoc.
      * rewrite fmap_cons. simpl. by f_equal.
      * rewrite filter_cons, decide_False by done. simpl. done.
      * intros Hfault Hin. apply Hall; [done|].
        apply elem_of_cons in Hin as [?|?]; [congruence|done].
Qed.

(** C6: in a pass over the active subscribers in which the message
    reaches everyone but [k], a send is attempted to every one of them, in
    the order of the list and with the same text; [remove_subscriber] is
    called once, for [k]; the rows of the others are as before; and the
    pass returns normally whether the store fails during that removal or
    not.  If the store does not fail, the active subscribers after the
    pass are those before it but [k]. *)
Theorem failed_delivery_is_isolated
    (summary : pyval) (body : string) (w : world) (t : table) (k : Z) :
  truthy summary = true →
  subscribers w = Some t →
  sqlite_fault E (trace w) = None →
  render E (trace w ++ [EvDbGetActive]) summary = Ret body →
  k ∈ select_active t →
  (∀ h text, is_raise (send_message E h k text) = true) →
  (∀ h j text, j ≠ k → send_message E h j text = Ret tt) →
  ∃ w' evs (t' : table),
    send_summary_to_subscribers E summary w = (Ret tt, w')
    ∧ trace w' = (trace w ++ EvDbGetActive :: evs)%list
    ∧ sends evs = (λ j, (j, body)) <$> select_active t
    ∧ removals evs = [k]
    ∧ subscribers w' = Some t'
    ∧ (∀ j, j ≠ k → t' !! j = t !! j)
    ∧ (t' !! k = t !! k ∨ t' !! k = deactivate <$> t !! k)
    ∧ ((∀ h, sqlite_fault E h = None) →
       ∀ j, j ∈ select_active t' ↔ j ∈ select_active t ∧ j ≠ k).
Proof.
  intros Htruthy Ht Hfault Hrender Hin Hk Hothers.
  unfold send_summary_to_subscribers. rewrite Htruthy. simpl.
  rewrite bind_eq.
  unfold db_get_active_subscribers,
    subscriber_db_sqlite.get_active_subscribers,
    subscriber_db_sqlite.fetch_active.
  rewrite Hfault, Ht. simpl.
  destruct (select_active t) as [|j0 ids0] eqn:Hids;
    [by apply elem_of_nil in Hin|].
  rewrite <- Hids in *. clear j0 ids0 Hids.
  rewrite bind_eq. unfold format_message. simpl.
  unfold record at 1. simpl.
  rewrite Hrender.
  set (w0 := record EvDbGetActive (with_subscribers (Some t) w)).
  destruct (send_loop body k (select_active t) Hk Hothers w0 t eq_refl)
    as (w' & evs & t' & Hrun & Htr & Hs & Hr & Hsub & Hne & Hkk & Hall).
  exists w', evs, t'. split_and!; [done| |done| |done|done|done|].
  - rewrite Htr. subst w0. simpl. by rewrite <- app_assoc.
  - rewrite Hr. apply filter_singleton_NoDup; [apply NoDup_select_active|done].
  - intros Hnofault j. specialize (Hall Hnofault Hin).
    rewrite !elem_of_select_active. split.
    + intros (r & Hr' & Hact). destruct (decide (j = k)) as [->|Hj].
      * rewrite Hall in Hr'. destruct (t !! k) as [r0|]; [|done].
        simpl in Hr'. inversion Hr'; subst r. done.
      * rewrite Hne in Hr' by done. eauto.
    + intros [(r & Hr' & Hact) Hj]. exists r. by rewrite Hne.
Qed.

End monitor_facts.

(** ** Runs against a scripted outside *)

Lemma cursor_advances_before_summarizing_witness :
  let E := scripted (Script two_messages (Ret (Some partial_output)) [2] (Ret tt)) in
  let w := started (Some three_subscribers) in
  let m := Message 100 1700000600 "Fed holds rates" in
  let ms := [Message 99 1700000000 "Oil slips below 70"] in
  let w1 := (fetch_recent_messages E (180 # 60) w).2 in
  fetch_recent_messages E (180 # 60) w = (Ret (m :: ms), w1)
  ∧ last_message_id w ≠ Some (msg_id m)
  ∧ ∃ w2 evs,
      cycle E "prompt" 180 w = (Ret tt, w2)
      ∧ last_message_id w2 = Some (msg_id m)
      ∧ trace w2
        = (trace w1
           ++ EvChatCompletion (chat_request_of "prompt" (combined_text (m :: ms)))
           :: evs)%list
      ∧ ∀ w3 m' ms',
          fetch_recent_messages E (180 # 60) w2 = (Ret (m' :: ms'), w3) →
          msg_id m' = msg_id m →
          cycle E "prompt" 180 w2 = (Ret tt, record (EvSleep (180 * 60)) w3).
Proof.
  intros E w m ms w1.
  assert (Hfetch : fetch_recent_messages E (180 # 60) w = (Ret (m :: ms), w1))
    by reflexivity.
  assert (Hnew : last_message_id w ≠ Some (msg_id m)) by discriminate.
  split_and!; [exact Hfetch|exact Hnew|].
  exact (proj2 (cursor_advances_before_summarizing E "prompt" 180 w w1 m ms Hfetch)
           Hnew).
Defined.

(** The two turns of that run: the first one advances the cursor to 100
    although the distribution raises, the second one only sleeps. *)
Lemma same_batch_twice :
  let E := scripted (Script two_messages (Ret (Some partial_output)) [2] (Ret tt)) in
  let w2 := (monitor_and_summarize E "prompt" 180 2
               (started (Some three_subscribers))).2 in
  last_message_id w2 = Some 100
  ∧ trace w2
    = [EvUserIsConnected; EvGetEntity "marketfeed";
       EvIterMessages 1001 500 (180 # 60);
       EvChatCompletion
         (chat_request_of "prompt"
            (combined_text [Message 100 1700000600 "Fed holds rates";
                            Message 99 1700000000 "Oil slips below 70"]));
       EvDbGetActive; EvSleep 60;
       EvUserIsConnected; EvGetEntity "marketfeed";
       EvIterMessages 1001 500 (180 # 60); EvSleep 10800].
Proof. cbv zeta. split; reflexivity. Qed.

Lemma empty_batch_is_a_no_op_witness :
  let E := scripted (Script [TgMessage 7 1700000000 None] (Ret None) [] (Ret tt)) in
  let w := started (Some three_subscribers) in
  let w1 := (fetch_recent_messages E (5 # 60) w).2 in
  fetch_recent_messages E (5 # 60) w = (Ret [], w1)
  ∧ cycle E "prompt" 5 w = (Ret tt, record (EvSleep (5 * 60)) w1)
  ∧ last_message_id w1 = last_message_id w
  ∧ last_processed_time w1 = last_processed_time w.
Proof.
  intros E w w1.
  assert (Hfetch : fetch_recent_messages E (5 # 60) w = (Ret [], w1))
    by reflexivity.
  split; [exact Hfetch|].
  exact (proj2 (proj2 (empty_batch_is_a_no_op E "prompt" 5 w w1 Hfetch))).
Defined.

Lemma unparsable_output_gives_fallback_witness :
  let m := Message 100 1700000600 "Fed holds rates" in
  let w := started (Some three_subscribers) in
  let request := chat_request_of "prompt" (combined_text [m]) in
  let asked := record (EvChatCompletion request) w in
  let outside reply := scripted (Script two_messages (Ret (Some reply)) [] (Ret tt)) in
  let refusal := "Sorry, I cannot help with that." in
  let deep := stutter (Z.to_nat 5000) "[" ++ stutter (Z.to_nat 5000) "]" in
  let artifact := PDict [("summary", PStr "x")] in
  (json_loads (outside refusal) refusal = Raise json_decode_error
   ∧ is_JSONDecodeError json_decode_error = true
   ∧ summarize (outside refusal) "prompt" [m] w
     = (Ret (parse_fallback refusal), asked))
  ∧ (json_loads (outside deep) deep = Raise recursion_error
     ∧ is_JSONDecodeError recursion_error = false
     ∧ summarize (outside deep) "prompt" [m] w = (Ret error_fallback, asked))
  ∧ (json_loads (outside partial_output) partial_output = Ret artifact
     ∧ truthy artifact = true
     ∧ last_message_id w ≠ Some (msg_id m)
     ∧ summarize (outside partial_output) "prompt" [m] w = (Ret artifact, asked)
     ∧ process_batch (outside partial_output) "prompt" [m] w
       = (send_summary_to_subscribers (outside partial_output) artifact
          ≫= λ _, stamp_last_processed_time (outside partial_output))
           (record (EvChatCompletion request)
                   (with_last_message_id (Some (msg_id m)) w))).
Proof.
  intros m w request asked outside refusal deep artifact.
  assert (Hrefusal : json_loads (outside refusal) refusal = Raise json_decode_error)
    by reflexivity.
  assert (Hdeep : json_loads (outside deep) deep = Raise recursion_error)
    by (vm_compute; reflexivity).
  assert (Hpartial : json_loads (outside partial_output) partial_output = Ret artifact)
    by reflexivity.
  assert (Hlast : last_message_id w ≠ Some (msg_id m)) by discriminate.
  split_and!; [exact Hrefusal|reflexivity| |exact Hdeep|reflexivity|
               |exact Hpartial|reflexivity|exact Hlast| | ].
  - exact (proj1 (proj1 (unparsable_output_gives_fallback
                           (outside refusal) "prompt" m [] w refusal eq_refl)
                    json_decode_error Hrefusal eq_refl)).
  - exact (proj1 (proj1 (proj2 (unparsable_output_gives_fallback
                                  (outside deep) "prompt" m [] w deep eq_refl))
                    recursion_error Hdeep eq_refl)).
  - exact (proj1 (proj2 (proj2 (unparsable_output_gives_fallback
                                  (outside partial_output) "prompt" m [] w
                                  partial_output eq_refl))
                    artifact Hpartial)).
  - exact (proj1 (proj2 (proj2 (proj2 (unparsable_output_gives_fallback
                                         (outside partial_output) "prompt" m [] w
                                         partial_output eq_refl))
                           artifact Hpartial) eq_refl Hlast)).
Defined.

(** C2 as stated fails: an answer that is JSON but has one field of the
    schema only is not replaced by a fallback.  [summarize] returns it as
    decoded, it counts as true, and the turn hands it to
    [send_summary_to_subscribers], which reads the store before the
    rendering raises. *)
Lemma partial_artifact_reaches_distribution :
  let E := scripted (Script two_messages (Ret (Some partial_output)) [] (Ret tt)) in
  let w := started (Some three_subscribers) in
  let ms := [Message 100 1700000600 "Fed holds rates";
             Message 99 1700000000 "Oil slips below 70"] in
  let artifact := PDict [("summary", PStr "x")] in
  json_loads E partial_output = Ret artifact
  ∧ (summarize E "prompt" ms w).1 = Ret artifact
  ∧ artifact_complete artifact = false
  ∧ dict_get "market_sectors" artifact = None
  ∧ dict_get "potentially_impacted_stocks" artifact = None
  ∧ dict_get "sentiment" artifact = None
  ∧ truthy artifact = true
  ∧ (send_summary_to_subscribers E artifact w).1 = Raise (key_error "key_points")
  ∧ trace (cycle E "prompt" 180 w).2
    = [EvUserIsConnected; EvGetEntity "marketfeed";
       EvIterMessages 1001 500 (180 # 60);
       EvChatCompletion (chat_request_of "prompt" (combined_text ms));
       EvDbGetActive; EvSleep 60].
Proof. cbv zeta. split_and!; reflexivity. Qed.

Lemma caught_error_never_stops_the_loop_witness :
  let E := scripted (Script two_messages (Ret None) [] (Raise link_down)) in
  let w := cold (Some three_subscribers) in
  let w1 := (cycle_body E "prompt" 180 w).2 in
  cycle_body E "prompt" 180 w = (Raise link_down, w1)
  ∧ is_connection_error link_down = true
  ∧ cycle E "prompt" 180 w
    = (Ret tt,
       record (EvSleep 60)
         (connect E (record (EvSleep 5) (record EvUserDisconnect w1))).2)
  ∧ trace (cycle E "prompt" 180 w).2
    = [EvNewUserClient; EvUserConnect; EvUserDisconnect; EvSleep 5;
       EvNewUserClient; EvUserConnect; EvSleep 60].
Proof.
  intros E w w1.
  assert (Hbody : cycle_body E "prompt" 180 w = (Raise link_down, w1))
    by reflexivity.
  split_and!; [exact Hbody|reflexivity| |reflexivity].
  exact (proj1 (caught_error_never_stops_the_loop E "prompt" 180 w w1 link_down Hbody)).
Defined.

Lemma failed_delivery_is_isolated_witness :
  let E := bob_unreachable in
  let w := started (Some three_subscribers) in
  let body := "Markets are calm." in
  (truthy calm = true
   ∧ subscribers w = Some three_subscribers
   ∧ sqlite_fault E (trace w) = None
   ∧ render E (trace w ++ [EvDbGetActive]) calm = Ret body
   ∧ 2 ∈ select_active three_subscribers
   ∧ (∀ h text, is_raise (send_message E h 2 text) = true)
   ∧ (∀ h j text, j ≠ 2 → send_message E h j text = Ret tt))
  ∧ ∃ w' evs (t' : table),
      send_summary_to_subscribers E calm w = (Ret tt, w')
      ∧ trace w' = (trace w ++ EvDbGetActive :: evs)%list
      ∧ sends evs = (λ j, (j, body)) <$> select_active three_subscribers
      ∧ removals evs = [2]
      ∧ subscribers w' = Some t'
      ∧ (∀ j, j ≠ 2 → t' !! j = three_subscribers !! j)
      ∧ (t' !! 2 = three_subscribers !! 2
         ∨ t' !! 2 = deactivate <$> three_subscribers !! 2)
      ∧ ((∀ h, sqlite_fault E h = None) →
         ∀ j, j ∈ select_active t' ↔ j ∈ select_active three_subscribers ∧ j ≠ 2).
Proof.
  intros E w body.
  assert (H5 : 2 ∈ select_active three_subscribers).
  { apply elem_of_select_active. eexists. split; [vm_compute; reflexivity|reflexivity]. }
  assert (H6 : ∀ h text, is_raise (send_message E h 2 text) = true)
    by (intros; reflexivity).
  assert (H7 : ∀ h j text, j ≠ 2 → send_message E h j text = Ret tt).
  { intros h j text Hj. simpl. rewrite bool_decide_eq_false_2; [done|].
    intros Hin. apply list_elem_of_singleton in Hin. done. }
  split; [split_and!; try reflexivity; assumption|].
  exact (failed_delivery_is_isolated E calm body w three_subscribers 2
           eq_refl eq_refl eq_refl eq_refl H5 H6 H7).
Defined.

(** The scenario of the specification: the list is 1, 2, 3, the send to 2
    fails, and the active subscribers are 1 and 3 afterwards. *)
Lemma distribution_scenario :
  let w' := (send_summary_to_subscribers bob_unreachable calm
               (started (Some three_subscribers))).2 in
  sends (trace w')
  = [(3, "Markets are calm."); (2, "Markets are calm."); (1, "Markets are calm.")]
  ∧ removals (trace w') = [2]
  ∧ select_active <$> subscribers w' = Some [3; 1].
Proof. cbv zeta. split_and!; vm_compute; reflexivity. Qed.

(** A batch of one message of 15001 characters is cut to 15000 and
    marked. *)
Lemma long_batch_is_truncated :
  let m := Message 1 0 (stutter (Z.to_nat 15001) "a") in
  len (join separator (msg_text <$> [m])) = 15001
  ∧ combined_text [m] = stutter (Z.to_nat 15000) "a" ++ "...(truncated)".
Proof. cbv zeta. split; vm_compute; reflexivity. Qed.


(** * Further properties of the stores *)

Section more_store_facts.
Implicit Types (t : table) (db : database) (r : row).

Lemma length_select_active t : count_active t = Z.of_nat (List.length (select_active t)).
Proof. apply count_active_select. Qed.

Lemma select_active_insert_active t user_id r j :
  active r = true →
  j ∈ select_active (<[user_id := r]> t) ↔ j = user_id ∨ j ∈ select_active t.
Proof.
  intros Hact. rewrite !elem_of_select_active. split.
  - intros (r' & Hr' & Hact'). destruct (decide (j = user_id)) as [->|Hj]; [by left|].
    right. rewrite lookup_insert_ne in Hr' by done. eauto.
  - intros [->|(r' & Hr' & Hact')].
    + exists r. by rewrite lookup_insert_eq.
    + destruct (decide (j = user_id)) as [->|Hj].
      * exists r. by rewrite lookup_insert_eq.
      * exists r'. by rewrite lookup_insert_ne.
Qed.

Lemma select_active_deactivate t user_id j :
  j ∈ select_active (alter deactivate user_id t)
  ↔ j ∈ select_active t ∧ j ≠ user_id.
Proof.
  rewrite !elem_of_select_active. split.
  - intros (r & Hr & Hact). destruct (decide (j = user_id)) as [->|Hj].
    + rewrite lookup_alter_eq in Hr. destruct (t !! user_id); [|done].
      simpl in Hr. inversion Hr; subst r. done.
    + rewrite lookup_alter_ne in Hr by done. eauto.
  - intros [(r & Hr & Hact) Hj]. exists r. by rewrite lookup_alter_ne.
Qed.

Lemma length_cons_or_same (l l' : list Z) (x : Z) :
  NoDup l → NoDup l' → (∀ j, j ∈ l' ↔ j = x ∨ j ∈ l) →
  Z.of_nat (List.length l')
  = (Z.of_nat (List.length l) + if bool_decide (x ∈ l) then 0 else 1)%Z.
Proof.
  intros Hl Hl' Hiff. case_bool_decide as Hx.
  - rewrite (Permutation_length (l:=l') (l':=l)); [lia|].
    apply NoDup_Permutation; [done..|]. intros j. rewrite Hiff.
    split; [intros [->|?]; done|by right].
  - rewrite (Permutation_length (l:=l') (l':=x :: l)); [simpl; lia|].
    apply NoDup_Permutation; [done|by constructor|].
    intros j. rewrite Hiff, elem_of_cons. done.
Qed.

Lemma length_remove_or_same (l l' : list Z) (x : Z) :
  NoDup l → NoDup l' → (∀ j, j ∈ l' ↔ j ∈ l ∧ j ≠ x) →
  Z.of_nat (List.length l')
  = (Z.of_nat (List.length l) - if bool_decide (x ∈ l) then 1 else 0)%Z.
Proof.
  intros Hl Hl' Hiff. case_bool_decide as Hx.
  - rewrite (Permutation_length (l:=l) (l':=x :: l')); [simpl; lia|].
    apply NoDup_Permutation; [done| |].
    + constructor; [|done]. rewrite Hiff. by intros [_ ?].
    + intros j. rewrite elem_of_cons, Hiff.
      destruct (decide (j = x)) as [->|Hj]; [by split; [left|]|].
      split; [by right|]. by intros [?|[? _]].
  - rewrite (Permutation_length (l:=l') (l':=l)); [lia|].
    apply NoDup_Permutation; [done..|]. intros j. rewrite Hiff.
    split; [by intros [? _]|]. intros Hj. split; [done|]. by intros ->.
Qed.

Lemma run_calls_preserves {S} (f : step → S → outcome value * S)
    (R : relation S) `{!PreOrder R} :
  (∀ c s, R s (f c s).2) → ∀ steps s, R s (run_calls f steps s).2.
Proof.
  intros Hstep steps. induction steps as [|c steps IH]; intros s; [done|].
  simpl. specialize (Hstep c s). destruct (f c s) as [r s1].
  specialize (IH s1). destruct (run_calls f steps s1) as [rs s2].
  simpl in *. by etrans.
Qed.

Lemma keeps_subscription_times_refl t : keeps_subscription_times t t.
Proof. intros j r Hr. eauto. Qed.

Lemma keeps_subscription_times_trans t1 t2 t3 :
  keeps_subscription_times t1 t2 → keeps_subscription_times t2 t3 →
  keeps_subscription_times t1 t3.
Proof.
  intros H12 H23 j r Hr. destruct (H12 j r Hr) as (r2 & Hr2 & Ht2).
  destruct (H23 j r2 Hr2) as (r3 & Hr3 & Ht3). exists r3. split; [done|congruence].
Qed.

Lemma keeps_subscription_times_upsert t user_id u f now :
  keeps_subscription_times t (subscriber_db.upsert user_id u f now t).
Proof.
  intros j r Hr. unfold subscriber_db.upsert.
  destruct (decide (j = user_id)) as [->|Hj].
  - rewrite Hr. eexists. by rewrite lookup_insert_eq.
  - exists r. by destruct (t !! user_id); rewrite lookup_insert_ne.
Qed.

Lemma keeps_subscription_times_deactivate t user_id :
  keeps_subscription_times t (alter deactivate user_id t).
Proof.
  intros j r Hr. destruct (decide (j = user_id)) as [->|Hj].
  - exists (deactivate r). by rewrite lookup_alter_eq, Hr.
  - exists r. by rewrite lookup_alter_ne.
Qed.

End more_store_facts.

(** Reads: on both backends, for every state of the store and whatever the
    driver raises, [get_active_subscribers] and [get_subscriber_count]
    return normally and leave the store as it is, the count is the length of
    the list, and a read that failed gives the empty list and 0. *)
Theorem reads_never_raise_and_agree
    (fault : option exn) (db : database) (st : subscriber_db.state) :
  (∃ ids,
      subscriber_db_sqlite.get_active_subscribers fault db = (Ret ids, db)
      ∧ subscriber_db_sqlite.get_subscriber_count fault db
        = (Ret (Z.of_nat (List.length ids)), db)
      ∧ (fault ≠ None ∨ db = None → ids = []))
  ∧ (∃ ids,
      subscriber_db.get_active_subscribers fault st = (Ret ids, st)
      ∧ subscriber_db.get_subscriber_count fault st
        = (Ret (Z.of_nat (List.length ids)), st)
      ∧ (fault ≠ None ∨ subscriber_db.pool st = false
         ∨ subscriber_db.server st = None → ids = [])).
Proof.
  split.
  - unfold subscriber_db_sqlite.get_active_subscribers,
      subscriber_db_sqlite.get_subscriber_count,
      subscriber_db_sqlite.fetch_active, subscriber_db_sqlite.fetch_count.
    destruct fault as [e|], db as [t|]; eexists; split_and!; try done.
    + by rewrite count_active_select.
    + by intros [?|?].
  - unfold subscriber_db.get_active_subscribers,
      subscriber_db.get_subscriber_count, subscriber_db.fetch.
    destruct st as [[] [t|]], fault as [e|]; simpl;
      eexists; split_and!; try done.
    + by rewrite count_active_select.
    + by intros [?|[?|?]].
Qed.

(** No call deletes a row: on both backends, whatever the calls and whatever
    the driver raises during them, every identifier stored before a sequence
    of calls is stored after it. *)
Theorem no_call_deletes_a_row
    (url : option string) (steps : list step) (t : table) (pool : bool) :
  (∃ t', (run_calls sqlite_step steps (Some t)).2 = Some t' ∧ dom t ⊆ dom t')
  ∧ (∃ t', subscriber_db.server
             (run_calls (postgres_step url) steps (subscriber_db.State pool (Some t))).2
           = Some t'
           ∧ dom t ⊆ dom t').
Proof.
  split.
  - set (R := λ db db' : database,
          ∀ t0 : table, db = Some t0 → ∃ t1 : table, db' = Some t1 ∧ dom t0 ⊆ dom t1).
    assert (PreOrder R) as HR.
    { split.
      - intros db t0 ->. by exists t0.
      - intros d1 d2 d3 H12 H23 t1 Ht1.
        destruct (H12 t1 Ht1) as (t2 & Ht2 & Hs2).
        destruct (H23 t2 Ht2) as (t3 & Ht3 & Hs3).
        exists t3. split; [done|]. by etrans. }
    apply (run_calls_preserves sqlite_step R); [|done].
    intros [c now fault] db t0 ->. unfold sqlite_step. simpl.
    destruct c as [|uid u f|uid| |], fault as [e|]; simpl;
      eexists; (split; [reflexivity|]); try done.
    + apply dom_insert_subseteq.
    + by rewrite dom_alter_L.
  - set (R := λ s s' : subscriber_db.state,
          ∀ t0 : table, subscriber_db.server s = Some t0 →
            ∃ t1 : table, subscriber_db.server s' = Some t1 ∧ dom t0 ⊆ dom t1).
    assert (PreOrder R) as HR.
    { split.
      - intros s t0 Ht0. by exists t0.
      - intros d1 d2 d3 H12 H23 t1 Ht1.
        destruct (H12 t1 Ht1) as (t2 & Ht2 & Hs2).
        destruct (H23 t2 Ht2) as (t3 & Ht3 & Hs3).
        exists t3. split; [done|]. by etrans. }
    apply (run_calls_preserves (postgres_step url) R); [|done].
    intros [c now fault] [p srv] t0 Ht0. simpl in Ht0. subst srv.
    unfold postgres_step. simpl.
    destruct c as [|uid u f|uid| |]; simpl.
    + unfold subscriber_db.connect, subscriber_db.create_table.
      destruct (subscriber_db.url_missing url), fault as [e|]; simpl;
        by eexists.
    + unfold subscriber_db.add_subscriber, subscriber_db.execute. simpl.
      destruct p, fault as [e|]; simpl; eexists; (split; [reflexivity|]); try done.
      unfold subscriber_db.upsert.
      destruct (t0 !! uid); apply dom_insert_subseteq.
    + unfold subscriber_db.remove_subscriber, subscriber_db.execute. simpl.
      destruct p, fault as [e|]; simpl; eexists; (split; [reflexivity|]); try done.
      by rewrite dom_alter_L.
    + unfold subscriber_db.get_active_subscribers.
      destruct (subscriber_db.fetch _ _ _); by eexists.
    + unfold subscriber_db.get_subscriber_count.
      destruct (subscriber_db.fetch _ _ _); by eexists.
Qed.

(** On the networked backend a row keeps the time of its first subscription:
    whatever the calls and whatever the driver raises during them, every row
    stored before a sequence of calls is stored after it with the same
    [subscribed_at]. *)
Theorem postgres_keeps_subscription_times
    (url : option string) (steps : list step) (t : table) (pool : bool) :
  ∃ t', subscriber_db.server
          (run_calls (postgres_step url) steps (subscriber_db.State pool (Some t))).2
        = Some t'
        ∧ keeps_subscription_times t t'.
Proof.
  set (R := λ s s' : subscriber_db.state,
        ∀ t0 : table, subscriber_db.server s = Some t0 →
          ∃ t1 : table, subscriber_db.server s' = Some t1
                        ∧ keeps_subscription_times t0 t1).
  assert (PreOrder R) as HR.
  { split.
    - intros s t0 Ht0. exists t0. split; [done|apply keeps_subscription_times_refl].
    - intros d1 d2 d3 H12 H23 t1 Ht1.
      destruct (H12 t1 Ht1) as (t2 & Ht2 & Hs2).
      destruct (H23 t2 Ht2) as (t3 & Ht3 & Hs3).
      exists t3. split; [done|]. by eapply keeps_subscription_times_trans. }
  apply (run_calls_preserves (postgres_step url) R); [|done].
  intros [c now fault] [p srv] t0 Ht0. simpl in Ht0. subst srv.
  unfold postgres_step. simpl.
  destruct c as [|uid u f|uid| |]; simpl.
  - unfold subscriber_db.connect, subscriber_db.create_table.
    destruct (subscriber_db.url_missing url), fault as [e|]; simpl;
      eexists; (split; [reflexivity|apply keeps_subscription_times_refl]).
  - unfold subscriber_db.add_subscriber, subscriber_db.execute. simpl.
    destruct p, fault as [e|]; simpl; eexists; (split; [reflexivity|]);
      first [apply keeps_subscription_times_upsert
            |apply keeps_subscription_times_refl].
  - unfold subscriber_db.remove_subscriber, subscriber_db.execute. simpl.
    destruct p, fault as [e|]; simpl; eexists; (split; [reflexivity|]);
      first [apply keeps_subscription_times_deactivate
            |apply keeps_subscription_times_refl].
  - unfold subscriber_db.get_active_subscribers.
    destruct (subscriber_db.fetch _ _ _); eexists;
      (split; [reflexivity|apply keeps_subscription_times_refl]).
  - unfold subscriber_db.get_subscriber_count.
    destruct (subscriber_db.fetch _ _ _); eexists;
      (split; [reflexivity|apply keeps_subscription_times_refl]).
Qed.

(** Removing an unknown identifier is no error and changes nothing: on both
    backends the call succeeds and the relation is as before. *)
Theorem remove_unknown_is_a_no_op (t : table) (user_id : Z) :
  t !! user_id = None →
  subscriber_db_sqlite.remove_subscriber None user_id (Some t) = (Ret true, Some t)
  ∧ subscriber_db.remove_subscriber None user_id (subscriber_db.State true (Some t))
    = (Ret tt, subscriber_db.State true (Some t)).
Proof.
  intros Hnone.
  assert (alter deactivate user_id t = t) as Hsame.
  { apply alter_id. intros r Hr. congruence. }
  unfold subscriber_db_sqlite.remove_subscriber,
    subscriber_db_sqlite.update_inactive, subscriber_db.remove_subscriber,
    subscriber_db.execute.
  simpl. by rewrite Hsame.
Qed.

Lemma remove_unknown_is_a_no_op_witness :
  three_subscribers !! 7 = None
  ∧ subscriber_db_sqlite.remove_subscriber None 7 (Some three_subscribers)
    = (Ret true, Some three_subscribers).
Proof.
  assert (H : three_subscribers !! 7 = None) by (vm_compute; reflexivity).
  split; [exact H|].
  exact (proj1 (remove_unknown_is_a_no_op three_subscribers 7 H)).
Defined.

(** A successful [add_subscriber] makes the identifier active and touches
    nobody else: on both backends the active identifiers afterwards are the
    former ones and the new one, and the count grows by one exactly when the
    identifier was not active before. *)
Theorem add_subscriber_makes_active
    (t : table) (user_id now : Z) (u f : option string) :
  (∃ t',
      subscriber_db_sqlite.add_subscriber None now user_id u f (Some t)
      = (Ret true, Some t')
      ∧ (∀ j, j ∈ select_active t' ↔ j = user_id ∨ j ∈ select_active t)
      ∧ count_active t'
        = (count_active t + if inactive_in t user_id then 1 else 0)%Z)
  ∧ (∃ t',
      subscriber_db.add_subscriber None now user_id u f
        (subscriber_db.State true (Some t))
      = (Ret tt, subscriber_db.State true (Some t'))
      ∧ (∀ j, j ∈ select_active t' ↔ j = user_id ∨ j ∈ select_active t)
      ∧ count_active t'
        = (count_active t + if inactive_in t user_id then 1 else 0)%Z).
Proof.
  assert (Hcount : ∀ t' : table,
            (∀ j, j ∈ select_active t' ↔ j = user_id ∨ j ∈ select_active t) →
            count_active t'
            = (count_active t + if inactive_in t user_id then 1 else 0)%Z).
  { intros t' Hiff. rewrite !count_active_select.
    rewrite (length_cons_or_same (select_active t) (select_active t') user_id);
      [|apply NoDup_select_active..|done].
    unfold inactive_in. repeat case_bool_decide; done. }
  split.
  - eexists. split; [reflexivity|].
    assert (∀ j, j ∈ select_active (<[user_id := Row u f now true]> t)
                 ↔ j = user_id ∨ j ∈ select_active t) as Hiff
      by (intros j; by apply select_active_insert_active).
    split; [exact Hiff|by apply Hcount].
  - unfold subscriber_db.add_subscriber, subscriber_db.execute. simpl.
    eexists. split; [reflexivity|].
    assert (∀ j, j ∈ select_active (subscriber_db.upsert user_id u f now t)
                 ↔ j = user_id ∨ j ∈ select_active t) as Hiff.
    { intros j. unfold subscriber_db.upsert.
      destruct (t !! user_id); by apply select_active_insert_active. }
    split; [exact Hiff|by apply Hcount].
Qed.

(** A successful [remove_subscriber] makes the identifier inactive and
    touches nobody else: on both backends the active identifiers afterwards
    are the former ones but this one, and the count drops by one exactly when
    the identifier was active. *)
Theorem remove_subscriber_makes_inactive (t : table) (user_id : Z) :
  ∃ t',
    subscriber_db_sqlite.remove_subscriber None user_id (Some t)
    = (Ret true, Some t')
    ∧ subscriber_db.remove_subscriber None user_id
        (subscriber_db.State true (Some t))
      = (Ret tt, subscriber_db.State true (Some t'))
    ∧ (∀ j, j ∈ select_active t' ↔ j ∈ select_active t ∧ j ≠ user_id)
    ∧ count_active t'
      = (count_active t - if inactive_in t user_id then 0 else 1)%Z.
Proof.
  exists (alter deactivate user_id t). split_and!; [done|done| |].
  - intros j. apply select_active_deactivate.
  - rewrite !count_active_select.
    rewrite (length_remove_or_same (select_active t)
               (select_active (alter deactivate user_id t)) user_id);
      [|apply NoDup_select_active..|intros j; apply select_active_deactivate].
    unfold inactive_in. repeat case_bool_decide; done.
Qed.

(** Subscribing again: on the file backend the last call decides the whole
    row, so that two calls leave what the second one alone leaves; on the
    networked backend the last call decides handle and name and the first one
    the subscription time, so that repeating a call, at whatever time, changes
    nothing. *)
Theorem resubscribe_last_write_wins
    (t : table) (user_id now1 now2 : Z) (u1 f1 u2 f2 : option string) :
  (let once := subscriber_db_sqlite.add_subscriber None now2 user_id u2 f2 (Some t) in
   let first := subscriber_db_sqlite.add_subscriber None now1 user_id u1 f1 (Some t) in
   subscriber_db_sqlite.add_subscriber None now2 user_id u2 f2 first.2 = once)
  ∧ (let st := subscriber_db.State true (Some t) in
     let first := subscriber_db.add_subscriber None now1 user_id u1 f1 st in
     subscriber_db.add_subscriber None now2 user_id u1 f1 first.2 = first
     ∧ ∃ t2 r,
         (subscriber_db.add_subscriber None now2 user_id u2 f2 first.2).2
         = subscriber_db.State true (Some t2)
         ∧ t2 !! user_id = Some r
         ∧ display r = (u2, f2, true)
         ∧ subscribed_at r
           = from_option subscribed_at now1 (t !! user_id)).
Proof.
  split.
  - simpl. unfold subscriber_db_sqlite.add_subscriber,
      subscriber_db_sqlite.insert_or_replace. simpl.
    by rewrite insert_insert_eq.
  - simpl. unfold subscriber_db.add_subscriber, subscriber_db.execute. simpl.
    split.
    + do 2 f_equal. f_equal. unfold subscriber_db.upsert.
      destruct (t !! user_id) as [old|] eqn:Hold;
        rewrite lookup_insert_eq; simpl; by rewrite insert_insert_eq.
    + unfold subscriber_db.upsert.
      destruct (t !! user_id) as [old|] eqn:Hold;
        rewrite lookup_insert_eq; simpl;
        eexists _, _; (split; [reflexivity|]);
        rewrite lookup_insert_eq; done.
Qed.

(** A write that raises on the networked backend changes nothing, and it
    raises exactly when there is no pool, the driver fails or the relation
    does not exist. *)
Theorem postgres_failed_write_changes_nothing
    (fault : option exn) (now user_id : Z) (u f : option string)
    (st : subscriber_db.state) :
  let broken :=
    subscriber_db.pool st = false ∨ fault ≠ None ∨ subscriber_db.server st = None in
  let added := subscriber_db.add_subscriber fault now user_id u f st in
  let removed := subscriber_db.remove_subscriber fault user_id st in
  (is_raise added.1 = true ↔ broken)
  ∧ (is_raise removed.1 = true ↔ broken)
  ∧ (is_raise added.1 = true → added.2 = st)
  ∧ (is_raise removed.1 = true → removed.2 = st).
Proof.
  unfold subscriber_db.add_subscriber, subscriber_db.remove_subscriber,
    subscriber_db.execute.
  destruct st as [[] [t|]], fault as [e|]; simpl; split_and!; try done;
    try (split; [done|intros [?|[?|?]]; done]);
    try (split; [intros _|done]; auto).
Qed.

(** * Further properties of the monitor *)

(** ** Texts *)

Lemma prefix_iff (sub s : string) :
  String.prefix sub s = true ↔ ∃ post, s = sub ++ post.
Proof.
  revert s. induction sub as [|c sub IH]; intros s.
  - split; [intros _; by exists s|by destruct s].
  - destruct s as [|d s]; simpl.
    + split; [done|]. intros [post Hpost]. rewrite string_app_cons in Hpost. done.
    + destruct (ascii_dec c d) as [->|Hne].
      * rewrite IH. split; intros [post Hpost]; exists post.
        -- by rewrite string_app_cons, Hpost.
        -- rewrite string_app_cons in Hpost. by inversion Hpost.
      * split; [done|]. intros [post Hpost].
        rewrite string_app_cons in Hpost. inversion Hpost. done.
Qed.

Lemma contains_iff (sub s : string) :
  contains sub s = true ↔ ∃ pre post, s = pre ++ sub ++ post.
Proof.
  induction s as [|c s IH].
  - cbn [contains]. rewrite orb_false_r, prefix_iff. split.
    + intros [post ->]. by exists EmptyString, post.
    + intros (pre & post & Heq). destruct pre as [|d pre]; [by exists post|].
      rewrite string_app_cons in Heq. done.
  - cbn [contains]. rewrite orb_true_iff, prefix_iff, IH. split.
    + intros [[post ->]|(pre & post & ->)].
      * by exists EmptyString, post.
      * exists (String c pre), post. by rewrite string_app_cons.
    + intros (pre & post & Heq). destruct pre as [|d pre].
      * left. by exists post.
      * right. rewrite string_app_cons in Heq. inversion Heq; subst.
        by exists pre, post.
Qed.

Lemma lower_char_idemp (c : ascii) : lower_char (lower_char c) = lower_char c.
Proof. destruct c as [[] [] [] [] [] [] [] []]; reflexivity. Qed.

Lemma lower_idemp (s : string) : lower (lower s) = lower s.
Proof.
  induction s as [|c s IH]; [done|]. simpl. by rewrite lower_char_idemp, IH.
Qed.

(** The test of lines 152 and 373: an error counts as a connection error
    exactly when "disconnected" or "connection" occurs somewhere in its
    lower-cased text; its class plays no part, and neither does the case of
    the letters of the text. *)
Theorem connection_error_is_a_substring_test (e : exn) :
  (is_connection_error e = true
   ↔ ∃ pre post,
       lower (exn_text e) = pre ++ "disconnected" ++ post
       ∨ lower (exn_text e) = pre ++ "connection" ++ post)
  ∧ (∀ cls, is_connection_error (Exn cls (exn_text e)) = is_connection_error e)
  ∧ is_connection_error (Exn (exn_class e) (lower (exn_text e)))
    = is_connection_error e.
Proof.
  split_and!.
  - unfold is_connection_error. rewrite orb_true_iff, !contains_iff. split.
    + intros [(pre & post & H)|(pre & post & H)]; exists pre, post; auto.
    + intros (pre & post & [H|H]); [left|right]; by exists pre, post.
  - done.
  - unfold is_connection_error. simpl. by rewrite lower_idemp.
Qed.

(** The text of a batch never exceeds 15014 characters, the limit and the
    marker, and the user content of the request never 15039, whatever the
    batch. *)
Theorem dispatched_text_is_bounded (prompt : string) (messages : list message) :
  (len (combined_text messages) ≤ 15014)%Z
  ∧ (len (user_content (chat_request_of prompt (combined_text messages)))
     ≤ 15039)%Z.
Proof.
  assert (len (combined_text messages) ≤ 15014)%Z as Hlen.
  { unfold combined_text.
    destruct (15000 <? len (join separator (msg_text <$> messages)))%Z eqn:Hlt.
    - unfold len, str_take.
      rewrite length_string_app, length_substring, Nat2Z.inj_add.
      change (Z.of_nat (String.length "...(truncated)")) with 14%Z. lia.
    - apply Z.ltb_ge in Hlt. lia. }
  split; [exact Hlen|].
  unfold chat_request_of. simpl. unfold len in *.
  rewrite length_string_app. simpl String.length.
  change (String.length "News updates to analyze:") with 24%nat. lia.
Qed.

(** Case analysis on a run that is still folded. *)
Ltac case_run :=
  match goal with
  | |- context [match ?r with (_, _) => _ end] =>
      destruct r as [[?|?] ?] eqn:?
  end.

Lemma keep_texts_spec (found : list tg_message) :
  (∀ m, m ∈ keep_texts found → msg_text m ≠ EmptyString)
  ∧ (msg_id <$> keep_texts found) `sublist_of` (tg_id <$> found).
Proof.
  unfold keep_texts. induction found as [|g found [IH1 IH2]]; [split; [|done]|].
  { intros m Hm. by apply elem_of_nil in Hm. }
  cbn [omap list_omap].
  destruct (tg_text g) as [text|]; [case_bool_decide as Hempty|].
  - split; [exact IH1|]. rewrite fmap_cons. by apply sublist_cons.
  - split.
    + intros m [->|Hm]%elem_of_cons; [done|by apply IH1].
    + rewrite !fmap_cons. by apply sublist_skip.
  - split; [exact IH1|]. rewrite fmap_cons. by apply sublist_cons.
Qed.

Section more_monitor_facts.
Variable E : env.
Variable prompt : string.

(** ** Summarizing *)

(** [summarize] never raises and sends at most one request.  For a batch
    that is not empty, a request that raises or comes back without content
    gives the error fallback, which has every field of the schema and counts
    as true, so that it is distributed like a summary. *)
Theorem summarize_never_raises (messages : list message) (w : world) :
  let request := chat_request_of prompt (combined_text messages) in
  ∃ v,
    summarize E prompt messages w
    = (Ret v, match messages with
              | [] => w
              | _ :: _ => record (EvChatCompletion request) w
              end)
    ∧ (messages = [] → v = PNone)
    ∧ (messages ≠ [] →
       (∀ result, chat_create E (trace w) request ≠ Ret (Some result)) →
       v = error_fallback)
    ∧ artifact_complete error_fallback = true
    ∧ truthy error_fallback = true.
Proof.
  intros request. destruct messages as [|m ms].
  - exists PNone. split_and!; done.
  - unfold summarize, try_except. rewrite bind_eq. unfold ask. fold request.
    destruct (chat_create E (trace w) request) as [[result|]|e] eqn:Hanswer; simpl.
    + unfold try_except_if, decode.
      destruct (json_loads E result) as [parsed|e];
        [|destruct (is_JSONDecodeError e)];
        eexists; split_and!; try done;
        intros _ Hno; by destruct (Hno result).
    + eexists; split_and!; done.
    + eexists; split_and!; done.
Qed.

(** ** Fetching *)

(** Once the reader client exists, [fetch_recent_messages] never raises:
    a failed reconnection, a channel that does not resolve and any error of
    the iteration all end in the empty batch. *)
Theorem fetch_returns_once_connected (hours : Q) (w : world) :
  user_client w = true →
  ∃ ms w', fetch_recent_messages E hours w = (Ret ms, w')
           ∧ user_client w' = true.
Proof.
  intros Hclient.
  unfold fetch_recent_messages, fetch_body, resolve_channel, try_except,
    try_except_if, ask, get, mbind, M_bind, mret, M_ret.
  simpl. rewrite Hclient. simpl.
  repeat (first [case_outcome | case_flag]; simpl); by eexists _, _.
Qed.

(** What [fetch_recent_messages] returns is the empty batch or the messages
    that one call of [iter_messages] gave, with the cap 500 for a window of
    3 hours or more and 50 below, less those without text: every message
    of the batch has a text, and the batch keeps the order of the channel. *)
Theorem fetched_messages_have_text
    (hours : Q) (w w' : world) (ms : list message) :
  fetch_recent_messages E hours w = (Ret ms, w') →
  (ms = []
   ∨ ∃ history entity found,
       iter_messages E history entity (if Qle_bool 3 hours then 500 else 50) hours
       = Ret found
       ∧ ms = keep_texts found
       ∧ (msg_id <$> ms) `sublist_of` (tg_id <$> found))
  ∧ ∀ m, m ∈ ms → msg_text m ≠ EmptyString.
Proof.
  intros Hfetch.
  assert (ms = []
          ∨ ∃ history entity found,
              iter_messages E history entity
                (if Qle_bool 3 hours then 500 else 50) hours = Ret found
              ∧ ms = keep_texts found) as Hms.
  { revert Hfetch.
    unfold fetch_recent_messages, fetch_body, resolve_channel, try_except,
      try_except_if, ask, get, mbind, M_bind, mret, M_ret.
    simpl.
    destruct (user_client w); simpl;
      [|destruct (connect E w) as [[[]|e0] w0]; simpl; [|discriminate]];
      repeat (first [case_outcome | case_flag]; simpl);
      intros Heq; inversion Heq; subst;
      first [by left | right; eexists _, _, _; split; [eassumption|reflexivity]]. }
  split.
  - destruct Hms as [->|(h & entity & found & Hiter & ->)]; [by left|].
    right. exists h, entity, found. split_and!; [done..|].
    apply keep_texts_spec.
  - destruct Hms as [->|(h & entity & found & Hiter & ->)].
    + intros m Hm. by apply elem_of_nil in Hm.
    + apply keep_texts_spec.
Qed.

(** ** Connecting *)

(** [connect] never loses a subscriber and reaches the store only while the
    monitor has not connected it yet.  Where it returns, the reader and the
    responder exist, the store is connected and its relation exists. *)
Theorem connect_keeps_the_subscribers (w : world) :
  let r := connect E w in
  (∀ t : table, subscribers w = Some t → subscribers r.2 = Some t)
  ∧ (db_ready w = true → subscribers r.2 = subscribers w)
  ∧ last_message_id r.2 = last_message_id w
  ∧ (r.1 = Ret tt →
     user_client r.2 = true ∧ bot_client r.2 = true ∧ db_ready r.2 = true
     ∧ (db_ready w = false → subscribers r.2 = Some (default ∅ (subscribers w)))).
Proof.
  unfold connect, ask, modify, get, raise, db_connect,
    subscriber_db_sqlite.connect, subscriber_db_sqlite.create_table,
    mbind, M_bind, mret, M_ret.
  simpl. destruct (db_ready w) eqn:Hready; simpl.
  all: repeat (first [rewrite Hready | case_outcome | case_fault | case_flag];
               simpl).
  all: split_and!; try done; by intros t ->.
Qed.

(** A reader that is not authorized stops [connect] with a
    [ConnectionError] before the responder is made and before the store is
    reached.  The text of that error names neither "connection" nor
    "disconnected", so that the loop does not take it for a connection
    error. *)
Theorem unauthorized_reader_stops_connect (w : world) :
  new_user_client E (trace w) = Ret tt →
  user_connect E (trace w ++ [EvNewUserClient]) = Ret tt →
  user_is_authorized E (trace w ++ [EvNewUserClient; EvUserConnect]) = Ret false →
  connect E w
  = (Raise authentication_failed,
     record EvUserIsAuthorized
       (record EvUserConnect (with_user_client true (record EvNewUserClient w))))
  ∧ exn_class authentication_failed = "ConnectionError"
  ∧ is_connection_error authentication_failed = false.
Proof.
  intros Hnew Hlink Hauth. split_and!; [|done|by vm_compute].
  unfold connect, ask, modify, get, raise, mbind, M_bind, mret, M_ret.
  simpl. rewrite Hnew. simpl. rewrite Hlink. simpl.
  rewrite <- app_assoc. simpl. by rewrite Hauth.
Qed.

(** ** Distributing *)

Lemma send_loop_any body ids :
  ∀ w (t : table), subscribers w = Some t →
  ∃ w' evs (t' : table),
    for_each ids (send_to E body) w = (Ret tt, w')
    ∧ trace w' = (trace w ++ evs)%list
    ∧ sends evs = (λ j, (j, body)) <$> ids
    ∧ removals evs `sublist_of` ids
    ∧ subscribers w' = Some t'
    ∧ dom t' = dom t
    ∧ (∀ j, t' !! j = t !! j ∨ t' !! j = deactivate <$> t !! j)
    ∧ (∀ j, j ∉ removals evs → t' !! j = t !! j)
    ∧ ((∀ h j text, send_message E h j text = Ret tt) →
       removals evs = [] ∧ t' = t).
Proof.
  assert (Hidem : ∀ o : option row, deactivate <$> (deactivate <$> o) = deactivate <$> o)
    by (by intros [[]|]).
  induction ids as [|k ids IH]; intros w t Ht.
  - exists w, [], t. split_and!; try done.
    + simpl. by rewrite app_nil_r.
    + by left.
  - cbn [for_each]. rewrite bind_eq.
    destruct (send_message E (trace w) k body) as [[]|e] eqn:Hsend.
    + rewrite (send_to_reached E body k w Hsend).
      set (w1 := record (EvSleep 1) _).
      destruct (IH w1 t Ht)
        as (w' & evs & t' & -> & Htr & Hs & Hr & Hsub & Hdom & Hrows & Hkeep & Hall).
      exists w', (EvSendMessage k body :: EvSleep 1 :: evs), t'.
      split_and!; [done| | | |done|done|done|done|done].
      * rewrite Htr. subst w1. simpl. by rewrite <- !app_assoc.
      * rewrite fmap_cons, <- Hs. reflexivity.
      * by apply sublist_cons.
    + assert (is_raise (send_message E (trace w) k body) = true) as Hraise
        by by rewrite Hsend.
      destruct (send_to_unreached E body k w t Hraise Ht) as (t1 & -> & Ht1 & _).
      set (w1 := record (EvDbRemove k) _).
      destruct (IH w1 t1 eq_refl)
        as (w' & evs & t' & -> & Htr & Hs & Hr & Hsub & Hdom & Hrows & Hkeep & Hall).
      exists w', (EvSendMessage k body :: EvDbRemove k :: evs), t'.
      assert (dom t1 = dom t) as Hdom1
        by (destruct Ht1 as [->| ->]; [done|apply dom_alter_L]).
      assert (∀ j, t1 !! j = t !! j ∨ t1 !! j = deactivate <$> t !! j) as Hrows1.
      { intros j. destruct Ht1 as [->| ->]; [by left|].
        destruct (decide (j = k)) as [->|Hj].
        - right. apply lookup_alter_eq.
        - left. by apply lookup_alter_ne. }
      split_and!; [done| | | |done| | | |].
      * rewrite Htr. subst w1. simpl. by rewrite <- !app_assoc.
      * rewrite fmap_cons, <- Hs. reflexivity.
      * change (removals (EvSendMessage k body :: EvDbRemove k :: evs))
          with (k :: removals evs). by apply sublist_skip.
      * congruence.
      * intros j. destruct (Hrows j) as [->| ->], (Hrows1 j) as [->| ->];
          rewrite ?Hidem; auto.
      * intros j Hj.
        change (removals (EvSendMessage k body :: EvDbRemove k :: evs))
          with (k :: removals evs) in Hj.
        apply not_elem_of_cons in Hj as [Hjk Hj]. rewrite (Hkeep j Hj).
        destruct Ht1 as [->| ->]; [done|]. by apply lookup_alter_ne.
      * intros Hok. by rewrite Hok in Hsend.
Qed.

(** A pass attempts everyone, whatever happens: once the list is read and
    the message is formatted, [send_summary_to_subscribers] sends the same
    text to every active subscriber in the order of the list and returns
    normally, whatever the sends and the store do.  It removes only
    subscribers of the list, deletes no row, changes a row only from active
    to inactive, and leaves the store as it was where every send
    succeeds. *)
Theorem distribution_attempts_everyone
    (summary : pyval) (body : string) (w : world) (t : table) :
  truthy summary = true →
  subscribers w = Some t →
  sqlite_fault E (trace w) = None →
  render E (trace w ++ [EvDbGetActive]) summary = Ret body →
  ∃ w' evs (t' : table),
    send_summary_to_subscribers E summary w = (Ret tt, w')
    ∧ trace w' = (trace w ++ EvDbGetActive :: evs)%list
    ∧ sends evs = (λ j, (j, body)) <$> select_active t
    ∧ removals evs `sublist_of` select_active t
    ∧ subscribers w' = Some t'
    ∧ dom t' = dom t
    ∧ (∀ j, t' !! j = t !! j ∨ t' !! j = deactivate <$> t !! j)
    ∧ (∀ j, j ∉ removals evs → t' !! j = t !! j)
    ∧ ((∀ h j text, send_message E h j text = Ret tt) →
       removals evs = [] ∧ t' = t).
Proof.
  intros Htruthy Ht Hfault Hrender.
  unfold send_summary_to_subscribers. rewrite Htruthy. simpl.
  rewrite bind_eq.
  unfold db_get_active_subscribers,
    subscriber_db_sqlite.get_active_subscribers,
    subscriber_db_sqlite.fetch_active.
  rewrite Hfault, Ht. simpl.
  set (w0 := record EvDbGetActive (with_subscribers (Some t) w)).
  destruct (select_active t) as [|j0 ids0] eqn:Hids.
  - exists w0, [], t. split_and!; try done. by left.
  - rewrite <- Hids. clear j0 ids0 Hids.
    rewrite bind_eq. unfold format_message.
    change (trace w0) with (trace w ++ [EvDbGetActive])%list.
    rewrite Hrender.
    destruct (send_loop_any body (select_active t) w0 t eq_refl)
      as (w' & evs & t' & Hrun & Htr & Hrest).
    exists w', evs, t'. split_and!; [done| |apply Hrest..].
    rewrite Htr. subst w0. simpl. by rewrite <- app_assoc.
Qed.

(** Without an active subscriber, or with a store that cannot be read, the
    message is not even formatted: [send_summary_to_subscribers] reads the
    store and returns normally for every summary, also for one whose
    formatting would raise. *)
Theorem nothing_is_formatted_without_subscribers (summary : pyval) (w : world) :
  truthy summary = true →
  select_active <$> subscribers w = Some []
  ∨ subscribers w = None
  ∨ sqlite_fault E (trace w) ≠ None →
  send_summary_to_subscribers E summary w = (Ret tt, record EvDbGetActive w).
Proof.
  intros Htruthy Hnone.
  unfold send_summary_to_subscribers. rewrite Htruthy. simpl.
  rewrite bind_eq.
  unfold db_get_active_subscribers,
    subscriber_db_sqlite.get_active_subscribers,
    subscriber_db_sqlite.fetch_active.
  assert (with_subscribers (subscribers w) w = w) as Hw by by destruct w.
  destruct (sqlite_fault E (trace w)) as [e|]; simpl; [by rewrite Hw|].
  destruct (subscribers w) as [t|] eqn:Ht; simpl; [|by rewrite Hw].
  destruct Hnone as [Hempty|[?|?]]; [|done..].
  simpl in Hempty. inversion Hempty as [Hsel]. rewrite Hsel. simpl. by rewrite Hw.
Qed.

(** ** The loop *)

(** The loop never spins: every turn returns normally and ends with a
    sleep, of the whole interval where the body of the turn returned and of
    60 seconds where it raised. *)
Theorem every_turn_ends_asleep (i : Z) (w : world) :
  ∃ w', (cycle_body E prompt i w).1 = Ret tt
        ∧ cycle E prompt i w = (Ret tt, record (EvSleep (i * 60)) w')
        ∨ is_raise (cycle_body E prompt i w).1 = true
          ∧ cycle E prompt i w = (Ret tt, record (EvSleep 60) w').
Proof.
  unfold cycle, try_except.
  destruct (cycle_body E prompt i w) as [[[]|e] w1] eqn:Hbody.
  - revert Hbody. unfold cycle_body. rewrite bind_eq.
    destruct (fetch_recent_messages E (i # 60) w) as [[ms|e] w0]; [|done].
    rewrite bind_eq.
    destruct (process_batch E prompt ms w0) as [[[]|e] w2]; [|done].
    intros Heq. inversion Heq. exists w2. by left.
  - unfold cycle_handler, try_except, sleep, ask, get, mbind, M_bind, mret, M_ret.
    simpl.
    destruct (is_connection_error e); [|by eexists; right].
    destruct (user_client w1); simpl.
    + destruct (user_disconnect E (trace w1)) as [[]|e1]; simpl;
        [|by eexists; right].
      destruct (connect E _) as [[[]|e2] w3]; by eexists; right.
    + destruct (connect E _) as [[[]|e2] w3]; by eexists; right.
Qed.

(** The cursor does not outlive the call: [monitor_and_summarize] starts
    with no cursor, so that the first batch it fetches is sent to the
    summarizer whatever the cursor of an earlier call was. *)
Theorem first_batch_after_start_is_summarized
    (i : Z) (w w1 : world) (m : message) (ms : list message) :
  fetch_recent_messages E (i # 60) (with_last_message_id None w)
  = (Ret (m :: ms), w1) →
  ∃ w2 evs,
    monitor_and_summarize E prompt i 1 w = (Ret tt, w2)
    ∧ last_message_id w2 = Some (msg_id m)
    ∧ trace w2
      = (trace w1
         ++ EvChatCompletion (chat_request_of prompt (combined_text (m :: ms)))
         :: evs)%list.
Proof.
  intros Hfetch.
  destruct (cycle_advances E prompt i (with_last_message_id None w) w1 m ms Hfetch)
    as (w2 & Hcycle & Hid & evs & Hevs); [done|].
  exists w2, evs. split_and!.
  - unfold monitor_and_summarize. rewrite bind_eq. simpl.
    rewrite bind_eq, Hcycle. reflexivity.
  - exact Hid.
  - rewrite Hevs. simpl. by rewrite <- app_assoc.
Qed.

(** ** What the loop does to the store *)

Section bears.
Context (R : relation world) `{!Bears R}.

Lemma with_own_subscribers w : with_subscribers (subscribers w) w = w.
Proof. by destruct w. Qed.

Lemma bears_ret {A} (a : A) : respects R (mret a).
Proof. intros w. reflexivity. Qed.

Lemma bears_raise {A} e : respects R (raise (A:=A) e).
Proof. intros w. reflexivity. Qed.

Lemma bears_get {A} (f : world → A) : respects R (get f).
Proof. intros w. reflexivity. Qed.

Lemma bears_bind {A B} (m : M A) (f : A → M B) :
  respects R m → (∀ a, respects R (f a)) → respects R (m ≫= f).
Proof.
  intros Hm Hf w. unfold mbind, M_bind. specialize (Hm w).
  destruct (m w) as [[a|e] w']; simpl in *; [|done].
  etrans; [exact Hm|apply Hf].
Qed.

Lemma bears_try {A} (m : M A) h :
  respects R m → (∀ e, respects R (h e)) → respects R (try_except m h).
Proof.
  intros Hm Hh w. unfold try_except. specialize (Hm w).
  destruct (m w) as [[a|e] w']; simpl in *; [done|].
  etrans; [exact Hm|apply Hh].
Qed.

Lemma bears_try_if {A} c (m : M A) h :
  respects R m → (∀ e, respects R (h e)) → respects R (try_except_if c m h).
Proof.
  intros Hm Hh w. unfold try_except_if. specialize (Hm w).
  destruct (m w) as [[a|e] w']; simpl in *; [done|].
  destruct (c e); [|done]. etrans; [exact Hm|apply Hh].
Qed.

Lemma bears_for_each {A} (l : list A) body :
  (∀ x, respects R (body x)) → respects R (for_each l body).
Proof.
  intros Hb. induction l as [|x l IH]; simpl.
  - apply bears_ret.
  - apply bears_bind; [apply Hb|by intros _].
Qed.

Lemma bears_ask {A} (answer : list event → outcome A) ev :
  respects R (ask answer ev).
Proof. intros w. apply bears_event. Qed.

Lemma bears_modify f : (∀ w, R w (f w)) → respects R (modify f).
Proof. intros Hf w. apply Hf. Qed.

Lemma bears_db_connect : respects R (db_connect E).
Proof.
  intros w. unfold db_connect, subscriber_db_sqlite.connect,
    subscriber_db_sqlite.create_table.
  destruct (sqlite_fault E (trace w)); simpl.
  - rewrite with_own_subscribers. apply bears_event.
  - etrans; [apply bears_create|apply bears_event].
Qed.

Lemma bears_db_get_active : respects R (db_get_active_subscribers E).
Proof.
  intros w. unfold db_get_active_subscribers,
    subscriber_db_sqlite.get_active_subscribers.
  destruct (subscriber_db_sqlite.fetch_active _ _); simpl;
    rewrite with_own_subscribers; apply bears_event.
Qed.

Lemma bears_db_remove user_id : respects R (db_remove_subscriber E user_id).
Proof.
  intros w. unfold db_remove_subscriber, subscriber_db_sqlite.remove_subscriber,
    subscriber_db_sqlite.update_inactive.
  destruct (sqlite_fault E (trace w)); simpl.
  - rewrite with_own_subscribers. apply bears_event.
  - destruct (subscribers w) as [t|] eqn:Ht; simpl.
    + etrans; [by apply (bears_deactivate user_id w t)|apply bears_event].
    + rewrite <- Ht, with_own_subscribers. apply bears_event.
Qed.

End bears.

(** One step of a proof that a computation of the loop respects a relation
    that bears its steps. *)
Ltac bears_step :=
  lazymatch goal with
  | |- respects ?R (mret _) => apply (bears_ret R)
  | |- respects ?R (raise _) => apply (bears_raise R)
  | |- respects ?R (get _) => apply (bears_get R)
  | |- respects ?R (sleep _) => apply (bears_ask R)
  | |- respects ?R (ask _ _) => apply (bears_ask R)
  | |- respects ?R (db_connect _) => apply (bears_db_connect R)
  | |- respects ?R (db_get_active_subscribers _) => apply (bears_db_get_active R)
  | |- respects ?R (db_remove_subscriber _ _) => apply (bears_db_remove R)
  | |- respects ?R (format_message _ _) => intros ?; reflexivity
  | |- respects ?R (decode _ _) => intros ?; reflexivity
  | |- respects ?R (stamp_last_processed_time _) => intros ?; apply bears_time
  | |- respects ?R (modify (with_user_client true)) =>
      apply (bears_modify R); intros ?; apply bears_user_client
  | |- respects ?R (modify (with_bot_client true)) =>
      apply (bears_modify R); intros ?; apply bears_bot_client
  | |- respects ?R (modify (with_db_ready true)) =>
      apply (bears_modify R); intros ?; apply bears_db_ready
  | |- respects ?R (modify (with_last_message_id _)) =>
      apply (bears_modify R); intros ?; apply bears_cursor
  | |- respects ?R (_ ≫= _) => apply (bears_bind R); [|intros ?]
  | |- respects ?R (try_except_if _ _ _) => apply (bears_try_if R); [|intros ?]
  | |- respects ?R (try_except _ _) => apply (bears_try R); [|intros ?]
  | |- respects ?R (for_each _ _) => apply (bears_for_each R); intros ?
  | |- respects _ (if ?b then _ else _) => destruct b
  | |- respects _ (match ?x with _ => _ end) => destruct x
  end.

Section loop_bears.
Context (R : relation world) `{!Bears R}.

Lemma bears_connect : respects R (connect E).
Proof. unfold connect. repeat bears_step. Qed.

Lemma bears_cycle i : respects R (cycle E prompt i).
Proof.
  unfold cycle, cycle_body, cycle_handler, process_batch, fetch_recent_messages,
    fetch_body, resolve_channel, summarize, send_summary_to_subscribers, send_to.
  repeat first [apply bears_connect | bears_step].
Qed.

Lemma bears_monitor i turns : respects R (monitor_and_summarize E prompt i turns).
Proof.
  unfold monitor_and_summarize. bears_step; [bears_step|].
  induction turns as [|n IH]; simpl; [bears_step|].
  bears_step; [apply bears_cycle|exact IH].
Qed.

End loop_bears.

Lemma only_deactivates_bears : Bears only_deactivates.
Proof.
  assert (Hidem : ∀ o : option row, deactivate <$> (deactivate <$> o) = deactivate <$> o)
    by (by intros [[]|]).
  assert (Hsame : ∀ w w', subscribers w' = subscribers w → only_deactivates w w').
  { intros w w' Hsub t Ht. exists t. rewrite Hsub. split_and!; [done..|]. by left. }
  split.
  - split.
    + intros w. by apply Hsame.
    + intros w1 w2 w3 H12 H23 t1 Ht1.
      destruct (H12 t1 Ht1) as (t2 & Ht2 & Hd2 & Hr2).
      destruct (H23 t2 Ht2) as (t3 & Ht3 & Hd3 & Hr3).
      exists t3. split_and!; [done|congruence|].
      intros j. destruct (Hr3 j) as [->| ->], (Hr2 j) as [->| ->];
        rewrite ?Hidem; auto.
  - intros ev w. by apply Hsame.
  - intros w. by apply Hsame.
  - intros w. by apply Hsame.
  - intros w. by apply Hsame.
  - intros i w. by apply Hsame.
  - intros now w. by apply Hsame.
  - intros w t Ht. exists t. simpl. rewrite Ht. split_and!; [done..|]. by left.
  - intros user_id w t Ht t0 Ht0. rewrite Ht in Ht0. inversion Ht0; subst t0.
    exists (alter deactivate user_id t). split_and!; [done|apply dom_alter_L|].
    intros j. destruct (decide (j = user_id)) as [->|Hj].
    + right. apply lookup_alter_eq.
    + left. by apply lookup_alter_ne.
Qed.

(** The loop alone never subscribes anybody: whatever the outside does, any
    number of turns adds no row, deletes no row and changes a row only from
    active to inactive, so that who is active after the turns was active
    before them. *)
Theorem the_loop_only_deactivates
    (i : Z) (turns : nat) (w : world) (t : table) :
  subscribers w = Some t →
  ∃ t' : table,
    subscribers (monitor_and_summarize E prompt i turns w).2 = Some t'
    ∧ dom t' = dom t
    ∧ (∀ j, t' !! j = t !! j ∨ t' !! j = deactivate <$> t !! j)
    ∧ (∀ j, j ∈ select_active t' → j ∈ select_active t).
Proof.
  intros Ht.
  destruct (bears_monitor only_deactivates (Bears0:=only_deactivates_bears)
              i turns w t Ht) as (t' & Ht' & Hdom & Hrows).
  exists t'. split_and!; [done..|].
  intros j. rewrite !elem_of_select_active. intros (r' & Hr' & Hact).
  destruct (Hrows j) as [Hj|Hj]; rewrite Hj in Hr'.
  - eauto.
  - destruct (t !! j) as [r|]; [|done]. simpl in Hr'.
    inversion Hr'; subst r'. done.
Qed.

Lemma keeps_connections_bears : Bears keeps_connections.
Proof.
  assert (Hsame : ∀ w w',
            user_client w' = user_client w → bot_client w' = bot_client w →
            db_ready w' = db_ready w → trace w' = trace w →
            keeps_connections w w').
  { intros w w' H1 H2 H3 H4. unfold keeps_connections.
    rewrite H1, H2, H3, H4. done. }
  split.
  - split.
    + intros w. by apply Hsame.
    + intros w1 w2 w3 (A1 & A2 & A3 & A4) (B1 & B2 & B3 & B4).
      split_and!; [auto..|by etrans].
  - intros ev w. split_and!; [done..|]. by apply prefix_app_r.
  - intros w. by split_and!.
  - intros w. by split_and!.
  - intros w. by split_and!.
  - intros i w. by apply Hsame.
  - intros now w. by apply Hsame.
  - intros w. by apply Hsame.
  - intros user_id w t _. by apply Hsame.
Qed.

(** The loop gives up nothing it has: after any number of turns, whatever
    the outside did, a reader, a responder and a store connection that
    existed before still exist, and the events before the turns are the first
    events after them. *)
Theorem the_loop_keeps_its_connections (i : Z) (turns : nat) (w : world) :
  let w' := (monitor_and_summarize E prompt i turns w).2 in
  (user_client w = true → user_client w' = true)
  ∧ (bot_client w = true → bot_client w' = true)
  ∧ (db_ready w = true → db_ready w' = true)
  ∧ trace w `prefix_of` trace w'.
Proof.
  exact (bears_monitor keeps_connections (Bears0:=keeps_connections_bears)
           i turns w).
Qed.

(** ** Turns that summarize *)

Lemma process_batch_run m ms w :
  last_message_id w ≠ Some (msg_id m) →
  ∃ v,
    let wc := record (EvChatCompletion
                        (chat_request_of prompt (combined_text (m :: ms))))
                     (with_last_message_id (Some (msg_id m)) w) in
    summarize E prompt (m :: ms) (with_last_message_id (Some (msg_id m)) w)
    = (Ret v, wc)
    ∧ process_batch E prompt (m :: ms) w
      = if truthy v
        then (send_summary_to_subscribers E v
              ≫= λ _, stamp_last_processed_time E) wc
        else (Ret tt, wc).
Proof.
  intros Hlast.
  destruct (summarize_batch E prompt m ms (with_last_message_id (Some (msg_id m)) w))
    as [v Hv].
  exists v. split; [exact Hv|].
  unfold process_batch. rewrite bind_eq. simpl.
  assert (bool_decide (last_message_id w = None)
          || negb (bool_decide (Some (msg_id m) = last_message_id w)) = true)
    as ->.
  { destruct (last_message_id w) as [l|]; [|done].
    rewrite (bool_decide_eq_false_2 (Some (msg_id m) = Some l)); [done|congruence]. }
  rewrite bind_eq. simpl. rewrite bind_eq, Hv. by destruct (truthy v).
Qed.

(** A summary that counts as false is dropped for good: where the
    collaborator answers JSON that decodes to an empty or null value, the
    turn moves the cursor, distributes nothing, leaves the time of the last
    distribution alone and sleeps the whole interval, so that this batch is
    not summarized again. *)
Theorem falsy_summary_is_dropped
    (i : Z) (w w1 : world) (m : message) (ms : list message)
    (result : string) (v : pyval) :
  let request := chat_request_of prompt (combined_text (m :: ms)) in
  fetch_recent_messages E (i # 60) w = (Ret (m :: ms), w1) →
  last_message_id w ≠ Some (msg_id m) →
  chat_create E (trace w1) request = Ret (Some result) →
  json_loads E result = Ret v →
  truthy v = false →
  cycle E prompt i w
  = (Ret tt,
     record (EvSleep (i * 60))
       (record (EvChatCompletion request)
          (with_last_message_id (Some (msg_id m)) w1))).
Proof.
  intros request Hfetch Hlast Hanswer Hloads Hfalsy.
  pose proof (respects_fetch E monitor_kept (i # 60) w) as (_ & Hid & _).
  rewrite Hfetch in Hid. simpl in Hid. rewrite <- Hid in Hlast.
  destruct (process_batch_run m ms w1 Hlast) as (v' & Hv' & Hrun).
  assert (v' = v) as ->.
  { revert Hv'. unfold summarize, try_except. rewrite bind_eq. unfold ask.
    simpl. fold request. rewrite Hanswer. simpl.
    unfold try_except_if, decode. rewrite Hloads.
    intros Heq. by inversion Heq. }
  rewrite Hfalsy in Hrun.
  unfold cycle, try_except, cycle_body. rewrite bind_eq, Hfetch, bind_eq, Hrun.
  reflexivity.
Qed.

(** The time of the last distribution is stamped exactly when a
    distribution returned: in a turn with a new batch and a summary that
    counts as true, the time becomes the reading of the clock once
    [send_summary_to_subscribers] has returned, and stays what it was where
    that call raised. *)
Theorem stamp_marks_a_returned_distribution
    (i : Z) (w w1 w3 : world) (m : message) (ms : list message)
    (v : pyval) (r : outcome unit) :
  let request := chat_request_of prompt (combined_text (m :: ms)) in
  let wc := record (EvChatCompletion request)
                   (with_last_message_id (Some (msg_id m)) w1) in
  fetch_recent_messages E (i # 60) w = (Ret (m :: ms), w1) →
  last_message_id w ≠ Some (msg_id m) →
  summarize E prompt (m :: ms) (with_last_message_id (Some (msg_id m)) w1)
  = (Ret v, wc) →
  truthy v = true →
  send_summary_to_subscribers E v wc = (r, w3) →
  (r = Ret tt →
   cycle E prompt i w
   = (Ret tt,
      record (EvSleep (i * 60))
        (with_last_processed_time (clock E (trace w3)) w3)))
  ∧ (is_raise r = true →
     last_processed_time (cycle E prompt i w).2 = last_processed_time w).
Proof.
  intros request wc Hfetch Hlast Hsum Htruthy Hsend.
  pose proof (respects_fetch E monitor_kept (i # 60) w) as (Htime & Hid & _).
  rewrite Hfetch in Hid, Htime. simpl in Hid, Htime. rewrite <- Hid in Hlast.
  destruct (process_batch_run m ms w1 Hlast) as (v' & Hv' & Hrun).
  rewrite Hsum in Hv'. inversion Hv'; subst v'. clear Hv'.
  rewrite Htruthy in Hrun. fold request wc in Hrun.
  rewrite bind_eq, Hsend in Hrun.
  split.
  - intros ->. unfold cycle, try_except, cycle_body.
    rewrite bind_eq, Hfetch, bind_eq, Hrun. reflexivity.
  - intros Hraise. destruct r as [[]|e]; [done|].
    unfold cycle, try_except, cycle_body.
    rewrite bind_eq, Hfetch, bind_eq, Hrun.
    pose proof (respects_handler E monitor_kept e w3) as (Hh & _).
    rewrite Hh.
    pose proof (respects_send E monitor_kept v wc) as (Hs & _).
    rewrite Hsend in Hs. simpl in Hs. rewrite Hs. subst wc. simpl. exact Htime.
Qed.

(** ** Resolving the channel *)

(** With a connected reader: where neither the name of the channel nor the
    name with "@" resolves, both with a [ValueError], the fetch ends in the
    empty batch after these two calls and without disconnecting, whatever
    the text of the errors; where the first call raises another error, the
    second name is not tried. *)
Theorem channel_name_is_tried_twice (hours : Q) (w : world) (e : exn) :
  let name := target_channel E in
  let w0 := record (EvGetEntity name) (record EvUserIsConnected w) in
  user_client w = true →
  user_is_connected E (trace w) = true →
  get_entity E (trace w ++ [EvUserIsConnected]) name = Raise e →
  (is_ValueError E e = true →
   ∀ e', get_entity E (trace w0) (String "@" name) = Raise e' →
         is_ValueError E e' = true →
         fetch_recent_messages E hours w
         = (Ret [], record (EvGetEntity (String "@" name)) w0))
  ∧ (is_ValueError E e = false →
     fetch_recent_messages E hours w
     = (Ret [],
        if is_connection_error e
        then record EvUserDisconnect w0 else w0)).
Proof.
  intros name w0 Hclient Hconnected Hfirst.
  unfold fetch_recent_messages, fetch_body, resolve_channel, try_except,
    try_except_if, ask, get, mbind, M_bind, mret, M_ret.
  simpl. rewrite Hclient. simpl. rewrite Hconnected. simpl.
  fold name. rewrite Hfirst. simpl.
  split.
  - intros -> e' Hsecond Hagain.
    rewrite Hsecond. simpl. by rewrite Hagain.
  - intros ->. simpl. destruct (is_connection_error e); simpl; [|done].
    by destruct (user_disconnect E _) as [[]|?].
Qed.

End more_monitor_facts.

(** ** Making the monitor *)

(** [__init__] makes a monitor exactly when the four Telegram credentials
    and the OpenAI key are all set and not empty; otherwise it raises a
    [ValueError], for the Telegram credentials first.  The new monitor has no
    client, an unconnected store and no cursor. *)
Theorem init_needs_every_credential
    (c : credentials) (now : Z) (history : list event) (db : database) :
  let telegram :=
    forallb is_set [API_ID c; API_HASH c; SESSION_STRING c; BOT_TOKEN c] in
  (telegram && is_set (OPENAI_API_KEY c) = true
   ↔ ∃ w, init c now history db = Ret w)
  ∧ (telegram = false → init c now history db = Raise missing_credentials)
  ∧ (telegram = true → is_set (OPENAI_API_KEY c) = false →
     init c now history db = Raise missing_openai_key)
  ∧ (∀ w, init c now history db = Ret w →
       user_client w = false ∧ bot_client w = false ∧ db_ready w = false
       ∧ last_message_id w = None ∧ last_processed_time w = now
       ∧ subscribers w = db ∧ trace w = history).
Proof.
  intros telegram. unfold init. fold telegram.
  destruct telegram, (is_set (OPENAI_API_KEY c)); simpl; split_and!;
    try done; try (split; [done|by intros [? ?]]);
    try (split; [by eexists|done]).
  all: intros w Hw; by inversion Hw.
Qed.

(** The first fetch of a new monitor starts by connecting: whatever the
    outside answers, its first event is the making of the reader client. *)
Theorem first_fetch_connects
    (E : env) (hours : Q) (c : credentials) (now : Z) (history : list event)
    (db : database) (w : world) :
  init c now history db = Ret w →
  ∃ evs, trace (fetch_recent_messages E hours w).2
         = (history ++ EvNewUserClient :: evs)%list.
Proof.
  intros Hinit.
  assert (user_client w = false ∧ trace w = history) as [Hclient Htrace].
  { revert Hinit. unfold init.
    destruct (negb _); [done|]. destruct (negb _); [done|].
    intros Heq. by inversion Heq. }
  unfold fetch_recent_messages, connect, fetch_body, resolve_channel,
    try_except, try_except_if, ask, get, modify, raise, db_connect,
    subscriber_db_sqlite.connect, subscriber_db_sqlite.create_table,
    mbind, M_bind, mret, M_ret.
  simpl. rewrite Hclient. simpl.
  repeat (first [case_outcome | case_fault | case_flag]; simpl).
  all: rewrite ?Htrace; eexists; rewrite <- ?app_assoc; reflexivity.
Qed.

(** ** Runs of the further properties against a scripted outside *)

Lemma fetch_returns_once_connected_witness :
  let E := scripted (Script mixed_messages (Ret None) [] (Ret tt)) in
  let w := started None in
  user_client w = true
  ∧ ∃ ms w', fetch_recent_messages E (2 # 1) w = (Ret ms, w')
             ∧ user_client w' = true.
Proof.
  intros E w. split; [reflexivity|].
  exact (fetch_returns_once_connected E (2 # 1) w eq_refl).
Defined.

Lemma fetched_messages_have_text_witness :
  let E := scripted (Script mixed_messages (Ret None) [] (Ret tt)) in
  let w := started None in
  let ms := [Message 100 1700000600 "Fed holds rates";
             Message 97 1700000000 "Oil slips below 70"] in
  let w' := (fetch_recent_messages E (2 # 1) w).2 in
  fetch_recent_messages E (2 # 1) w = (Ret ms, w')
  ∧ ∀ m, m ∈ ms → msg_text m ≠ EmptyString.
Proof.
  intros E w ms w'.
  assert (H : fetch_recent_messages E (2 # 1) w = (Ret ms, w')) by reflexivity.
  split; [exact H|].
  exact (proj2 (fetched_messages_have_text E (2 # 1) w w' ms H)).
Defined.

Lemma unauthorized_reader_stops_connect_witness :
  let E := unauthorized (scripted (Script two_messages (Ret None) [] (Ret tt))) in
  let w := cold None in
  (new_user_client E (trace w) = Ret tt
   ∧ user_connect E (trace w ++ [EvNewUserClient]) = Ret tt
   ∧ user_is_authorized E (trace w ++ [EvNewUserClient; EvUserConnect]) = Ret false)
  ∧ connect E w
    = (Raise authentication_failed,
       record EvUserIsAuthorized
         (record EvUserConnect (with_user_client true (record EvNewUserClient w)))).
Proof.
  intros E w. split; [by split_and!|].
  exact (proj1 (unauthorized_reader_stops_connect E w eq_refl eq_refl eq_refl)).
Defined.

Lemma distribution_attempts_everyone_witness :
  let E := scripted (Script two_messages (Ret None) [1; 3] (Ret tt)) in
  let w := started (Some three_subscribers) in
  let body := "Markets are calm." in
  (truthy calm = true
   ∧ subscribers w = Some three_subscribers
   ∧ sqlite_fault E (trace w) = None
   ∧ render E (trace w ++ [EvDbGetActive]) calm = Ret body)
  ∧ ∃ w' evs (t' : table),
      send_summary_to_subscribers E calm w = (Ret tt, w')
      ∧ trace w' = (trace w ++ EvDbGetActive :: evs)%list
      ∧ sends evs = (λ j, (j, body)) <$> select_active three_subscribers
      ∧ removals evs `sublist_of` select_active three_subscribers
      ∧ subscribers w' = Some t'
      ∧ dom t' = dom three_subscribers
      ∧ (∀ j, t' !! j = three_subscribers !! j
              ∨ t' !! j = deactivate <$> three_subscribers !! j)
      ∧ (∀ j, j ∉ removals evs → t' !! j = three_subscribers !! j)
      ∧ ((∀ h j text, send_message E h j text = Ret tt) →
         removals evs = [] ∧ t' = three_subscribers).
Proof.
  intros E w body. split; [by split_and!|].
  exact (distribution_attempts_everyone E calm body w three_subscribers
           eq_refl eq_refl eq_refl eq_refl).
Defined.

(** Two of three subscribers cannot be reached: three sends, two removals,
    one active subscriber left. *)
Lemma two_unreachable_subscribers :
  let E := scripted (Script two_messages (Ret None) [1; 3] (Ret tt)) in
  let w' := (send_summary_to_subscribers E calm
               (started (Some three_subscribers))).2 in
  (fst <$> sends (trace w')) = [3; 2; 1]
  ∧ removals (trace w') = [3; 1]
  ∧ select_active <$> subscribers w' = Some [2].
Proof. cbv zeta. split_and!; vm_compute; reflexivity. Qed.

Lemma nothing_is_formatted_without_subscribers_witness :
  let E := scripted (Script two_messages (Ret None) [] (Ret tt)) in
  let w := started (Some ∅) in
  let partial := PDict [("summary", PStr "x")] in
  (truthy partial = true
   ∧ is_raise (render E (trace w ++ [EvDbGetActive]) partial) = true
   ∧ select_active <$> subscribers w = Some [])
  ∧ send_summary_to_subscribers E partial w = (Ret tt, record EvDbGetActive w).
Proof.
  intros E w partial.
  assert (H : select_active <$> subscribers w = Some []) by (vm_compute; reflexivity).
  split; [by split_and!|].
  exact (nothing_is_formatted_without_subscribers E partial w eq_refl (or_introl H)).
Defined.

Lemma first_batch_after_start_is_summarized_witness :
  let E := scripted (Script two_messages (Ret (Some calm_output)) [] (Ret tt)) in
  let w := with_last_message_id (Some 100) (started (Some three_subscribers)) in
  let m := Message 100 1700000600 "Fed holds rates" in
  let ms := [Message 99 1700000000 "Oil slips below 70"] in
  let w1 := (fetch_recent_messages E (180 # 60) (with_last_message_id None w)).2 in
  last_message_id w = Some (msg_id m)
  ∧ fetch_recent_messages E (180 # 60) (with_last_message_id None w)
    = (Ret (m :: ms), w1)
  ∧ ∃ w2 evs,
      monitor_and_summarize E "prompt" 180 1 w = (Ret tt, w2)
      ∧ last_message_id w2 = Some (msg_id m)
      ∧ trace w2
        = (trace w1
           ++ EvChatCompletion (chat_request_of "prompt" (combined_text (m :: ms)))
           :: evs)%list.
Proof.
  intros E w m ms w1.
  assert (H : fetch_recent_messages E (180 # 60) (with_last_message_id None w)
              = (Ret (m :: ms), w1)) by reflexivity.
  split_and!; [reflexivity|exact H|].
  exact (first_batch_after_start_is_summarized E "prompt" 180 w w1 m ms H).
Defined.

Lemma the_loop_only_deactivates_witness :
  let E := bob_unreachable in
  let w := started (Some three_subscribers) in
  subscribers w = Some three_subscribers
  ∧ ∃ t' : table,
      subscribers (monitor_and_summarize E "prompt" 180 2 w).2 = Some t'
      ∧ dom t' = dom three_subscribers
      ∧ (∀ j, t' !! j = three_subscribers !! j
              ∨ t' !! j = deactivate <$> three_subscribers !! j)
      ∧ (∀ j, j ∈ select_active t' → j ∈ select_active three_subscribers).
Proof.
  intros E w. split; [reflexivity|].
  exact (the_loop_only_deactivates E "prompt" 180 2 w three_subscribers eq_refl).
Defined.

Lemma falsy_summary_is_dropped_witness :
  let E := scripted (Script two_messages (Ret (Some "{}")) [] (Ret tt)) in
  let w := started (Some three_subscribers) in
  let m := Message 100 1700000600 "Fed holds rates" in
  let ms := [Message 99 1700000000 "Oil slips below 70"] in
  let w1 := (fetch_recent_messages E (180 # 60) w).2 in
  let request := chat_request_of "prompt" (combined_text (m :: ms)) in
  (fetch_recent_messages E (180 # 60) w = (Ret (m :: ms), w1)
   ∧ last_message_id w ≠ Some (msg_id m)
   ∧ chat_create E (trace w1) request = Ret (Some "{}")
   ∧ json_loads E "{}" = Ret (PDict [])
   ∧ truthy (PDict []) = false)
  ∧ cycle E "prompt" 180 w
    = (Ret tt,
       record (EvSleep (180 * 60))
         (record (EvChatCompletion request)
            (with_last_message_id (Some (msg_id m)) w1))).
Proof.
  intros E w m ms w1 request.
  assert (H1 : fetch_recent_messages E (180 # 60) w = (Ret (m :: ms), w1))
    by reflexivity.
  assert (H2 : last_message_id w ≠ Some (msg_id m)) by discriminate.
  split; [by split_and!|].
  exact (falsy_summary_is_dropped E "prompt" 180 w w1 m ms "{}" (PDict [])
           H1 H2 eq_refl eq_refl eq_refl).
Defined.

Lemma stamp_marks_a_returned_distribution_witness :
  let E := scripted (Script two_messages (Ret (Some calm_output)) [2] (Ret tt)) in
  let w := started (Some three_subscribers) in
  let m := Message 100 1700000600 "Fed holds rates" in
  let ms := [Message 99 1700000000 "Oil slips below 70"] in
  let w1 := (fetch_recent_messages E (180 # 60) w).2 in
  let request := chat_request_of "prompt" (combined_text (m :: ms)) in
  let wc := record (EvChatCompletion request)
                   (with_last_message_id (Some (msg_id m)) w1) in
  let w3 := (send_summary_to_subscribers E calm wc).2 in
  (fetch_recent_messages E (180 # 60) w = (Ret (m :: ms), w1)
   ∧ last_message_id w ≠ Some (msg_id m)
   ∧ summarize E "prompt" (m :: ms) (with_last_message_id (Some (msg_id m)) w1)
     = (Ret calm, wc)
   ∧ truthy calm = true
   ∧ send_summary_to_subscribers E calm wc = (Ret tt, w3))
  ∧ cycle E "prompt" 180 w
    = (Ret tt,
       record (EvSleep (180 * 60))
         (with_last_processed_time (clock E (trace w3)) w3)).
Proof.
  intros E w m ms w1 request wc w3.
  assert (H1 : fetch_recent_messages E (180 # 60) w = (Ret (m :: ms), w1))
    by reflexivity.
  assert (H2 : last_message_id w ≠ Some (msg_id m)) by discriminate.
  assert (H3 : summarize E "prompt" (m :: ms)
                 (with_last_message_id (Some (msg_id m)) w1) = (Ret calm, wc))
    by reflexivity.
  assert (H5 : send_summary_to_subscribers E calm wc = (Ret tt, w3))
    by reflexivity.
  split; [by split_and!|].
  exact (proj1 (stamp_marks_a_returned_distribution E "prompt" 180 w w1 w3 m ms
                  calm (Ret tt) H1 H2 H3 eq_refl H5) eq_refl).
Defined.

Lemma channel_name_is_tried_twice_witness :
  let E := with_get_entity (λ _ _, Raise no_such_channel)
             (scripted (Script two_messages (Ret None) [] (Ret tt))) in
  let w := started None in
  let w0 := record (EvGetEntity "marketfeed") (record EvUserIsConnected w) in
  (user_client w = true
   ∧ user_is_connected E (trace w) = true
   ∧ get_entity E (trace w ++ [EvUserIsConnected]) "marketfeed"
     = Raise no_such_channel
   ∧ is_ValueError E no_such_channel = true
   ∧ is_connection_error no_such_channel = true)
  ∧ fetch_recent_messages E (2 # 1) w
    = (Ret [], record (EvGetEntity "@marketfeed") w0).
Proof.
  intros E w w0. split; [by split_and!|].
  exact (proj1 (channel_name_is_tried_twice E (2 # 1) w no_such_channel
                  eq_refl eq_refl eq_refl)
           eq_refl no_such_channel eq_refl eq_refl).
Defined.

Lemma first_fetch_connects_witness :
  let E := scripted (Script two_messages (Ret None) [] (Ret tt)) in
  let w := cold None in
  init all_set 0 [] None = Ret w
  ∧ ∃ evs, trace (fetch_recent_messages E (2 # 1) w).2
           = ([] ++ EvNewUserClient :: evs)%list.
Proof.
  intros E w.
  assert (H : init all_set 0 [] None = Ret w) by reflexivity.
  split; [exact H|].
  exact (first_fetch_connects E (2 # 1) all_set 0 [] None w H).
Defined.
